(** * hydra-slurm-launcher: the submission core, embedded and verified

    A shallow embedding of [hydra_plugins/hydra_slurm_launcher/config.py]
    and [hydra_plugins/hydra_slurm_launcher/_core.py].

    Conventions of the embedding:
    - a Python [str] is a [string]; each [ascii] stands for one code point
      below 256 (the scheduler's acknowledgment is plain ASCII text);
    - a Python [int] is a [Z];
    - a Python [dict] is an insertion-ordered association list;
    - code that touches the file system, the shared configuration object or
      the scheduler runs in a state-and-exception monad over [World]. *)

From Stdlib Require Import String Ascii List ZArith Lia Bool DecimalString.
Import ListNotations.
Open Scope string_scope.

(** ** Python string primitives *)

Module PyStr.

(** The double quote character, which string literals here never hold. *)
Definition dq : string := String (ascii_of_nat 34) "".

(** [str.isspace] on one code point below 256. *)
Definition is_space (c : ascii) : bool :=
  let n := nat_of_ascii c in
  (((9 <=? n) && (n <=? 13)) || ((28 <=? n) && (n <=? 32))
   || (n =? 133) || (n =? 160))%nat.

(** The line boundaries of [str.splitlines] below 256. *)
Definition is_linebreak (c : ascii) : bool :=
  let n := nat_of_ascii c in
  (((10 <=? n) && (n <=? 13)) || ((28 <=? n) && (n <=? 30))
   || (n =? 133))%nat.

Definition is_cr (c : ascii) : bool := (nat_of_ascii c =? 13)%nat.
Definition is_lf (c : ascii) : bool := (nat_of_ascii c =? 10)%nat.

(** The newline character *)
Definition nl : string := String (ascii_of_nat 10) "".

(** [s.startswith(p)] *)
Definition startswith (p s : string) : bool := String.prefix p s.

(** [p in s] for strings *)
Fixpoint contains (p s : string) : bool :=
  startswith p s ||
  match s with
  | EmptyString => false
  | String _ s' => contains p s'
  end.

(** [s.endswith(p)] *)
Definition endswith (p s : string) : bool :=
  let n := String.length s in
  let m := String.length p in
  (m <=? n)%nat && String.eqb (String.substring (n - m) m s) p.

(** [s.replace(a, b)] for one-character [a] and [b] *)
Fixpoint replace_char (a b : ascii) (s : string) : string :=
  match s with
  | EmptyString => EmptyString
  | String c s' =>
      String (if Ascii.eqb c a then b else c) (replace_char a b s')
  end.

(** [s.replace(a, r)] for a one-character [a] and any [r] *)
Fixpoint replace_with (a : ascii) (r : string) (s : string) : string :=
  match s with
  | EmptyString => EmptyString
  | String c s' =>
      (if Ascii.eqb c a then r else String c "") ++ replace_with a r s'
  end.

(** [sep.join(l)] *)
Fixpoint join (sep : string) (l : list string) : string :=
  match l with
  | [] => ""
  | [x] => x
  | x :: rest => x ++ sep ++ join sep rest
  end.

(** [s.splitlines()]: [cur] is the line being read, [after_cr] tells that
    the previous character was a carriage return, so that a line feed
    right after it does not open a line of its own. *)
Fixpoint splitlines_from (cur : string) (after_cr : bool) (s : string)
  : list string :=
  match s with
  | EmptyString => if String.eqb cur "" then [] else [cur]
  | String c s' =>
      if after_cr && is_lf c then splitlines_from cur false s'
      else if is_linebreak c then cur :: splitlines_from "" (is_cr c) s'
      else splitlines_from (cur ++ String c "") false s'
  end.

Definition splitlines (s : string) : list string :=
  splitlines_from "" false s.

Fixpoint lstrip_chars (l : list ascii) : list ascii :=
  match l with
  | c :: l' => if is_space c then lstrip_chars l' else l
  | [] => []
  end.

Definition rstrip_chars (l : list ascii) : list ascii :=
  rev (lstrip_chars (rev l)).

(** [s.strip()] *)
Definition strip (s : string) : string :=
  string_of_list_ascii
    (rstrip_chars (lstrip_chars (list_ascii_of_string s))).

(** [s.split()]: the maximal runs of non-whitespace characters. [cur] is
    the run being read. *)
Fixpoint split_from (cur : string) (s : string) : list string :=
  match s with
  | EmptyString => if String.eqb cur "" then [] else [cur]
  | String c s' =>
      if is_space c
      then (if String.eqb cur "" then split_from "" s'
            else cur :: split_from "" s')
      else split_from (cur ++ String c "") s'
  end.

Definition split (s : string) : list string := split_from "" s.

(** [str(n)] for an [int] *)
Definition str_of_int (z : Z) : string :=
  NilZero.string_of_int (Z.to_int z).

End PyStr.

(** ** Python values, dictionaries and [shlex.quote] *)

(** The values a configuration attribute or an [additional] entry holds at
    run time. The dataclass annotations are not enforced by Python, so every
    scalar attribute may hold any of them. *)
Inductive pyval : Type :=
| PNone
| PBool (b : bool)
| PInt (z : Z)
| PStr (s : string).

(** [v is not None] *)
Definition is_not_None (v : pyval) : bool :=
  match v with PNone => false | _ => true end.

(** [isinstance(v, bool)] *)
Definition is_bool (v : pyval) : bool :=
  match v with PBool _ => true | _ => false end.

(** [str(v)], which is also what an f-string placeholder renders *)
Definition py_str (v : pyval) : string :=
  match v with
  | PNone => "None"
  | PBool true => "True"
  | PBool false => "False"
  | PInt z => PyStr.str_of_int z
  | PStr s => s
  end.

Module PyDict.
Section Dict.
Context {V : Type}.

Definition dict := list (string * V).

(** [k in d] *)
Fixpoint mem (k : string) (d : dict) : bool :=
  match d with
  | [] => false
  | (k', _) :: d' => String.eqb k' k || mem k d'
  end.

Fixpoint get (k : string) (d : dict) : option V :=
  match d with
  | [] => None
  | (k', v) :: d' => if String.eqb k' k then Some v else get k d'
  end.

(** [d[k] = v]: an existing key keeps its place, a new one goes last. *)
Fixpoint set (k : string) (v : V) (d : dict) : dict :=
  match d with
  | [] => [(k, v)]
  | (k', v') :: d' =>
      if String.eqb k' k then (k', v) :: d' else (k', v') :: set k v d'
  end.

(** [d.update(items)] *)
Definition update (d : dict) (items : list (string * V)) : dict :=
  fold_left (fun acc kv => set (fst kv) (snd kv) acc) items d.

(** [{k: v for k, v in items if keep(k, v)}] *)
Definition comprehension (keep : string -> V -> bool)
           (items : list (string * V)) : dict :=
  update [] (filter (fun kv => keep (fst kv) (snd kv)) items).
End Dict.
Arguments dict V : clear implicits.
End PyDict.

(** [k in l] for a list of strings *)
Definition in_list (k : string) (l : list string) : bool :=
  existsb (String.eqb k) l.

Module shlex.
(** The complement of [_find_unsafe]: [[a-zA-Z0-9_@%+=:,./-]]. *)
Definition is_safe (c : ascii) : bool :=
  let n := nat_of_ascii c in
  (((97 <=? n) && (n <=? 122)) || ((65 <=? n) && (n <=? 90))
   || ((48 <=? n) && (n <=? 57)))%nat
  || in_list (String c "")
       ["_"; "@"; "%"; "+"; "="; ":"; ","; "."; "/"; "-"].

Fixpoint all_safe (s : string) : bool :=
  match s with
  | EmptyString => true
  | String c s' => is_safe c && all_safe s'
  end.

Definition quote (s : string) : string :=
  if String.eqb s "" then "''"
  else if all_safe s then s
  else "'" ++ PyStr.replace_with "'"%char ("'" ++ PyStr.dq ++ "'" ++ PyStr.dq ++ "'") s
       ++ "'".
End shlex.

(** ** config.py *)

Module config.

Record SlurmQueueConf : Type := mkSlurmQueueConf {
  _target_ : pyval;
  partition : pyval;
  job_name : pyval;
  job_array_name : pyval;
  nodes : pyval;
  ntasks : pyval;
  ntasks_per_node : pyval;
  cpus_per_task : pyval;
  mem : pyval;
  time : pyval;
  gres : pyval;
  gpus : pyval;
  account : pyval;
  qos : pyval;
  begin : pyval;
  mail_type : pyval;
  mail_user : pyval;
  additional : PyDict.dict pyval;
  setup : list string
}.

(** The field defaults of the dataclass. *)
Definition defaults : SlurmQueueConf :=
  {| _target_ :=
       PStr "hydra_plugins.hydra_slurm_launcher.slurmlauncher.SlurmLauncher";
     partition := PStr "default";
     job_name := PNone; job_array_name := PNone;
     nodes := PNone; ntasks := PNone; ntasks_per_node := PNone;
     cpus_per_task := PNone; mem := PNone; time := PNone;
     gres := PNone; gpus := PNone;
     account := PNone; qos := PNone; begin := PNone;
     mail_type := PNone; mail_user := PNone;
     additional := []; setup := [] |}.

(** [self.job_name = v] *)
Definition set_job_name (v : pyval) (c : SlurmQueueConf) : SlurmQueueConf :=
  {| _target_ := _target_ c; partition := partition c;
     job_name := v; job_array_name := job_array_name c;
     nodes := nodes c; ntasks := ntasks c;
     ntasks_per_node := ntasks_per_node c;
     cpus_per_task := cpus_per_task c; mem := mem c; time := time c;
     gres := gres c; gpus := gpus c;
     account := account c; qos := qos c; begin := begin c;
     mail_type := mail_type c; mail_user := mail_user c;
     additional := additional c; setup := setup c |}.

(** [self.gres = v] *)
Definition set_gres (v : pyval) (c : SlurmQueueConf) : SlurmQueueConf :=
  {| _target_ := _target_ c; partition := partition c;
     job_name := job_name c; job_array_name := job_array_name c;
     nodes := nodes c; ntasks := ntasks c;
     ntasks_per_node := ntasks_per_node c;
     cpus_per_task := cpus_per_task c; mem := mem c; time := time c;
     gres := v; gpus := gpus c;
     account := account c; qos := qos c; begin := begin c;
     mail_type := mail_type c; mail_user := mail_user c;
     additional := additional c; setup := setup c |}.

(** [vars(self).items()], in the order the fields are declared. The two
    container attributes [additional] and [setup] are left out of the
    listing: both [non_slurm] lists of [_core] name them, so no dictionary
    comprehension over [vars(config)] ever keeps them. *)
Definition vars (c : SlurmQueueConf) : list (string * pyval) :=
  [ ("_target_", _target_ c);
    ("partition", partition c);
    ("job_name", job_name c);
    ("job_array_name", job_array_name c);
    ("nodes", nodes c);
    ("ntasks", ntasks c);
    ("ntasks_per_node", ntasks_per_node c);
    ("cpus_per_task", cpus_per_task c);
    ("mem", mem c);
    ("time", time c);
    ("gres", gres c);
    ("gpus", gpus c);
    ("account", account c);
    ("qos", qos c);
    ("begin", begin c);
    ("mail_type", mail_type c);
    ("mail_user", mail_user c) ].

End config.

(** ** Exceptions, the world and the monad of effects *)

Inductive exn : Type :=
| ValueError (msg : string)
| CalledProcessError (returncode : Z)
| FileNotFoundError (filename : string)
| PermissionError (filename : string)
| IndexError.

Inductive Outcome (A : Type) : Type :=
| Returned (a : A)
| Raised (e : exn).
Arguments Returned {A} a.
Arguments Raised {A} e.

(** What the operating system does with one run of a command: the process
    runs and exits, or it cannot be started because the program is not on
    the search path or may not be executed. *)
Inductive ProcOutcome : Type :=
| Exited (returncode : Z) (stdout : string)
| NotFound
| NotPermitted.

(** One record of the task store, as [submit_job_array] builds it. *)
Record TaskConfig : Type := mkTaskConfig {
  tc_overrides : string;
  tc_job_name : string;
  tc_output_dir : string;
  tc_task_id : nat
}.

(** What a written file holds: text, or the JSON form of the task records
    ([json.dump(config_data, f)]), kept as the records themselves. *)
Inductive FileContent : Type :=
| Text (s : string)
| Json (records : list TaskConfig).

(** The state the code runs in. [slurm_config] is the one [SlurmQueueConf]
    object of the launcher ([self.slurm_config]); the [config] argument of
    every function of [_core] is a reference to it. [can_open] tells which
    paths [open(path, "w")] can open. [files] and [modes] log the writes and
    the [chmod]s, last first. [sbatch] is what running ["sbatch", path]
    does. [argv0] is [to_absolute_path(sys.argv[0])]. *)
Record World : Type := mkWorld {
  slurm_config : config.SlurmQueueConf;
  argv0 : string;
  can_open : string -> bool;
  files : list (string * FileContent);
  modes : list (string * Z);
  sbatch : string -> ProcOutcome
}.

Definition M (A : Type) : Type := World -> Outcome A * World.

Definition ret {A} (a : A) : M A := fun w => (Returned a, w).
Definition raise {A} (e : exn) : M A := fun w => (Raised e, w).
Definition bind {A B} (m : M A) (k : A -> M B) : M B :=
  fun w => match m w with
           | (Returned a, w') => k a w'
           | (Raised e, w') => (Raised e, w')
           end.

Declare Scope py_scope.
Delimit Scope py_scope with py.
Notation "x <- m ;; k" := (bind m (fun x => k))
  (at level 100, m at next level, right associativity) : py_scope.
Notation "m ;; k" := (bind m (fun _ => k))
  (at level 100, right associativity) : py_scope.
Open Scope py_scope.

(** [try: body except E: handler], for the exceptions [catches] admits. *)
Definition try_except {A} (body : M A) (catches : exn -> bool)
           (handler : M A) : M A :=
  fun w => match body w with
           | (Returned a, w') => (Returned a, w')
           | (Raised e, w') =>
               if catches e then handler w' else (Raised e, w')
           end.

Definition is_CalledProcessError (e : exn) : bool :=
  match e with CalledProcessError _ => true | _ => false end.

Definition get_config : M config.SlurmQueueConf :=
  fun w => (Returned (slurm_config w), w).

Definition set_config (c : config.SlurmQueueConf) : M unit :=
  fun w => (Returned tt,
            {| slurm_config := c; argv0 := argv0 w; can_open := can_open w;
               files := files w; modes := modes w; sbatch := sbatch w |}).

Definition get_argv0 : M string := fun w => (Returned (argv0 w), w).

(** [with open(path, "w") as f: f.write(...)] or [json.dump(..., f)] *)
Definition write_file (path : string) (content : FileContent) : M unit :=
  fun w =>
    if can_open w path
    then (Returned tt,
          {| slurm_config := slurm_config w; argv0 := argv0 w;
             can_open := can_open w;
             files := (path, content) :: files w;
             modes := modes w; sbatch := sbatch w |})
    else (Raised (FileNotFoundError path), w).

(** [os.chmod(path, mode)] *)
Definition os_chmod (path : string) (mode : Z) : M unit :=
  fun w => (Returned tt,
            {| slurm_config := slurm_config w; argv0 := argv0 w;
               can_open := can_open w; files := files w;
               modes := (path, mode) :: modes w; sbatch := sbatch w |}).

(** [os.path.join(a, b)] on POSIX *)
Definition os_path_join (a b : string) : string :=
  if PyStr.startswith "/" b then b
  else if String.eqb a "" || PyStr.endswith "/" a then a ++ b
  else a ++ "/" ++ b.

Record CompletedProcess : Type := mkCompletedProcess {
  cp_returncode : Z;
  cp_stdout : string
}.

(** [subprocess.run(["sbatch", script], check=..., stdout=PIPE, text=True)]:
    with [check], a non-zero exit status raises [CalledProcessError]. *)
Definition subprocess_run_sbatch (script : string) (check : bool)
  : M CompletedProcess :=
  fun w =>
    match sbatch w script with
    | Exited rc out =>
        if check && negb (Z.eqb rc 0)
        then (Raised (CalledProcessError rc), w)
        else (Returned (mkCompletedProcess rc out), w)
    | NotFound => (Raised (FileNotFoundError "sbatch"), w)
    | NotPermitted => (Raised (PermissionError "sbatch"), w)
    end.

(** [SlurmQueueConf.__post_init__]; [self] is the object the generated
    [__init__] has just filled, and the updated object is returned. *)
Definition __post_init__ (self : config.SlurmQueueConf)
  : M config.SlurmQueueConf :=
  (if is_not_None (config.gpus self) && is_not_None (config.gres self)
   then raise (ValueError "Cannot specify both 'gpus' and 'gres'")
   else ret tt) ;;
  let self :=
    if is_not_None (config.gpus self)
    then config.set_gres (PStr ("gpu:" ++ py_str (config.gpus self))) self
    else self in
  (if is_not_None (config.job_name self)
      && is_not_None (config.job_array_name self)
   then raise (ValueError "Cannot specify both 'job_name' and 'job_array_name'")
   else ret tt) ;;
  ret self.

(** [SlurmQueueConf] called with keyword arguments: the fields as given (defaults filled in),
    then [__post_init__]. *)
Definition SlurmQueueConf_new (fields : config.SlurmQueueConf)
  : M config.SlurmQueueConf :=
  __post_init__ fields.

(** [SlurmLauncher.__init__]: [self.slurm_config = SlurmQueueConf(...)] *)
Definition SlurmLauncher_init (fields : config.SlurmQueueConf) : M unit :=
  c <- SlurmQueueConf_new fields ;;
  set_config c.

(** ** hydra.core.utils, as far as [_core] uses it *)

Inductive JobStatus : Type := UNKNOWN | COMPLETED | FAILED.

(** The values [_core] stores in [JobReturn.return_value]: [None], or the
    dictionary with the single key [job_id], whose value is a string or
    [None]. *)
Inductive ReturnValue : Type :=
| RNone
| RJobId (job_id : option string).

Record JobReturn : Type := mkJobReturn {
  status : JobStatus;
  return_value : ReturnValue
}.

(** [JobReturn()] *)
Definition JobReturn_new : JobReturn := mkJobReturn UNKNOWN RNone.

(** [ret.status = s] and [ret.return_value = v] *)
Definition set_status (s : JobStatus) (r : JobReturn) : JobReturn :=
  mkJobReturn s (return_value r).
Definition set_return_value (v : ReturnValue) (r : JobReturn) : JobReturn :=
  mkJobReturn (status r) v.

(** [filter_overrides]: the overrides that do not start with [hydra.] *)
Definition filter_overrides (overrides : list string) : list string :=
  filter (fun x => negb (PyStr.startswith "hydra." x)) overrides.

(** ** _core.py *)

(** [as_sbatch_flag(key, value)] *)
Definition as_sbatch_flag (key : string) (value : pyval) : string :=
  let key := PyStr.replace_char "_"%char "-"%char key in
  if is_bool value then "#SBATCH --" ++ key
  else
    let value := shlex.quote (py_str value) in
    "#SBATCH --" ++ key ++ "=" ++ value.

(** [build_command(overrides)] *)
Definition build_command (overrides : list string) : M string :=
  let overrides := filter_overrides overrides in
  argv0 <- get_argv0 ;;
  let command := "python " ++ argv0 ++ " hydra.launcher=basic" in
  ret (match overrides with
       | [] => command
       | _ => command ++ " " ++ PyStr.join " " overrides
       end).

(** The lines that follow the header in both scripts when [config.setup] is
    not empty. *)
Definition setup_lines (c : config.SlurmQueueConf) : list string :=
  match config.setup c with
  | [] => []
  | l => [" "; "# Setup commands"] ++ l
  end.

(** [params.update(config.additional)] under [if config.additional] *)
Definition update_additional (c : config.SlurmQueueConf)
           (params : PyDict.dict pyval) : PyDict.dict pyval :=
  match config.additional c with
  | [] => params
  | extra => PyDict.update params extra
  end.

Definition non_slurm_single : list string :=
  ["additional"; "setup"; "_target_"; "job_array_name"].

(** [params] of [generate_slurm_script], from the configuration as it is
    after the job name has been set. *)
Definition slurm_params (c : config.SlurmQueueConf) (output_dir : string)
  : PyDict.dict pyval :=
  let paths :=
    [ ("output",
       PStr (output_dir ++ "/" ++ py_str (config.job_name c) ++ "_%j.out"));
      ("error",
       PStr (output_dir ++ "/" ++ py_str (config.job_name c) ++ "_%j.err")) ]
  in
  let params :=
    PyDict.comprehension
      (fun k v => is_not_None v && negb (in_list k non_slurm_single))
      (config.vars c) in
  let params := PyDict.update params paths in
  update_additional c params.

(** [lines] of [generate_slurm_script] *)
Definition slurm_script_lines (c : config.SlurmQueueConf)
           (output_dir command : string) : list string :=
  ["#!/bin/bash"; " "; "# SLURM parameters"]
  ++ map (fun kv => as_sbatch_flag (fst kv) (snd kv))
         (slurm_params c output_dir)
  ++ setup_lines c
  ++ [" "; "# Run the command"; command].

(** [generate_slurm_script(config, job_name, output_dir, command)] *)
Definition generate_slurm_script (job_name output_dir command : string)
  : M string :=
  c <- get_config ;;
  let original_config_job_name := config.job_name c in
  (if negb (is_not_None (config.job_name c))
   then set_config (config.set_job_name (PStr job_name) c)
   else ret tt) ;;
  c <- get_config ;;
  let script := PyStr.join PyStr.nl (slurm_script_lines c output_dir command) in
  let script_path := os_path_join output_dir (job_name ++ ".sh") in
  write_file script_path (Text script) ;;
  c <- get_config ;;
  set_config (config.set_job_name original_config_job_name c) ;;
  ret script_path.

Definition non_slurm_array : list string :=
  ["additional"; "setup"; "_target_"; "job_name"; "job_array_name"].

(** [params] of [generate_array_script] *)
Definition array_params (c : config.SlurmQueueConf) (array_size : Z)
  : PyDict.dict pyval :=
  let paths := [("array", PStr ("0-" ++ PyStr.str_of_int (array_size - 1)))] in
  let params :=
    PyDict.comprehension
      (fun k v => is_not_None v && negb (in_list k non_slurm_array))
      (config.vars c) in
  let params := PyDict.update params paths in
  update_additional c params.

(** The lines of the array script up to the end of the directives. *)
Definition array_directive_lines (c : config.SlurmQueueConf)
           (array_name : pyval) (array_size : Z) : list string :=
  ["#!/bin/bash"; " "; "# SLURM parameters"]
  ++ ["#SBATCH --job-name=" ++ py_str array_name]
  ++ ["#SBATCH --output=/dev/null"]
  ++ ["#SBATCH --error=/dev/null"]
  ++ map (fun kv => as_sbatch_flag (fst kv) (snd kv))
         (filter (fun kv => negb (in_list (fst kv) ["output"; "error"]))
                 (array_params c array_size)).

(** The lines by which an array member finds its own task record. *)
Definition array_runtime_lines (config_file : string) : list string :=
  let dq := PyStr.dq in
  let field name :=
    "$(echo $CONFIG | python -c " ++ dq
    ++ "import json; import sys; print(json.loads(sys.stdin.read())['"
    ++ name ++ "'])" ++ dq ++ ")" in
  [ " ";
    "# Get task-specific configuration";
    "CONFIG=$(python -c " ++ dq
      ++ "import json; import os; import sys; f=open('"
      ++ config_file
      ++ "'); "
      ++ "configs=json.load(f); task_id=int(os.environ['SLURM_ARRAY_TASK_ID']); "
      ++ "print(json.dumps(configs[task_id])) if 0 <= task_id < len(configs) else sys.exit(1)"
      ++ dq ++ ")";
    " ";
    "if [ $? -ne 0 ]; then";
    "    echo " ++ dq
      ++ "Error: Could not retrieve configuration for task $SLURM_ARRAY_TASK_ID"
      ++ dq;
    "    exit 1";
    "fi";
    " ";
    "# Extract task-specific information";
    "OVERRIDES=" ++ field "overrides";
    "JOB_NAME=" ++ field "job_name";
    "OUTPUT_DIR=" ++ field "output_dir";
    " ";
    "# Create output directory if it doesn't exist";
    "mkdir -p " ++ dq ++ "$OUTPUT_DIR" ++ dq;
    " ";
    "# Redirect all output to the job-specific files";
    "exec > " ++ dq
      ++ "$OUTPUT_DIR/${JOB_NAME}_${SLURM_ARRAY_JOB_ID}_${SLURM_ARRAY_TASK_ID}.out"
      ++ dq;
    "exec 2> " ++ dq
      ++ "$OUTPUT_DIR/${JOB_NAME}_${SLURM_ARRAY_JOB_ID}_${SLURM_ARRAY_TASK_ID}.err"
      ++ dq;
    " " ].

(** [lines] of [generate_array_script] *)
Definition array_script_lines (c : config.SlurmQueueConf)
           (array_name : pyval) (array_size : Z)
           (config_file argv0 : string) : list string :=
  array_directive_lines c array_name array_size
  ++ array_runtime_lines config_file
  ++ setup_lines c
  ++ [ " ";
       "# Run the command";
       "python " ++ argv0 ++ " hydra.launcher=basic $OVERRIDES" ].

(** [generate_array_script(config, array_name, array_size, config_file,
    sweep_dir)] *)
Definition generate_array_script (array_name : pyval) (array_size : Z)
           (config_file sweep_dir : string) : M string :=
  c <- get_config ;;
  argv0 <- get_argv0 ;;
  let script :=
    PyStr.join PyStr.nl
      (array_script_lines c array_name array_size config_file argv0) in
  let script_path :=
    os_path_join sweep_dir (py_str array_name ++ "_array.sh") in
  write_file script_path (Text script) ;;
  ret script_path.

(** [line.strip().split()[-1]]; indexing an empty list raises. *)
Definition last_token (line : string) : Outcome string :=
  match rev (PyStr.split (PyStr.strip line)) with
  | t :: _ => Returned t
  | [] => Raised IndexError
  end.

(** The loop that looks for the job id: [job_id] is the value found so far,
    and every line holding the acknowledgment phrase replaces it. *)
Fixpoint scan_job_id (job_id : option string) (lines : list string)
  : Outcome (option string) :=
  match lines with
  | [] => Returned job_id
  | line :: rest =>
      if PyStr.contains "Submitted batch job" line
      then match last_token line with
           | Returned t => scan_job_id (Some t) rest
           | Raised e => Raised e
           end
      else scan_job_id job_id rest
  end.

Definition extract_job_id (stdout : string) : Outcome (option string) :=
  scan_job_id None (PyStr.splitlines stdout).

Definition of_outcome {A} (o : Outcome A) : M A := fun w => (o, w).

(** Truth value of a variable that holds [None] or a string. *)
Definition truthy_id (job_id : option string) : bool :=
  match job_id with
  | None => false
  | Some s => negb (String.eqb s "")
  end.

(** [submit_job(config, overrides, job_name, output_dir)] *)
Definition submit_job (overrides : list string) (job_name output_dir : string)
  : M JobReturn :=
  cmd <- build_command overrides ;;
  script_path <- generate_slurm_script job_name output_dir cmd ;;
  let r := JobReturn_new in
  let r := set_return_value RNone r in
  submitted <- subprocess_run_sbatch script_path true ;;
  if Z.eqb (cp_returncode submitted) 0
  then
    job_id <- of_outcome (extract_job_id (cp_stdout submitted)) ;;
    let r := set_status COMPLETED r in
    ret (set_return_value
           (if truthy_id job_id then RJobId job_id else RNone) r)
  else
    ret (set_status FAILED r).

Fixpoint zip3 {A B C} (a : list A) (b : list B) (c : list C)
  : list (A * B * C) :=
  match a, b, c with
  | x :: a', y :: b', z :: c' => (x, y, z) :: zip3 a' b' c'
  | _, _, _ => []
  end.

Fixpoint enumerate_from {A} (start : nat) (l : list A) : list (nat * A) :=
  match l with
  | [] => []
  | x :: l' => (start, x) :: enumerate_from (S start) l'
  end.

(** [config_data] of [submit_job_array] *)
Definition build_config_data (all_overrides : list (list string))
           (job_names output_dirs : list string) : list TaskConfig :=
  map (fun it =>
         match it with
         | (idx, (overrides, job_name, output_dir)) =>
             mkTaskConfig (PyStr.join " " (filter_overrides overrides))
                          job_name output_dir idx
         end)
      (enumerate_from 0 (zip3 all_overrides job_names output_dirs)).

(** The record of task [i] after a submission the scheduler accepted. *)
Definition completed_return (array_job_id : option string) (i : nat)
  : JobReturn :=
  let r := JobReturn_new in
  let r := set_status COMPLETED r in
  set_return_value
    (RJobId (if truthy_id array_job_id
             then match array_job_id with
                  | Some j => Some (j ++ "_" ++ PyStr.str_of_int (Z.of_nat i))
                  | None => None
                  end
             else None)) r.

(** [JobReturn(status=JobStatus.FAILED)] *)
Definition failed_return : JobReturn := mkJobReturn FAILED RNone.

(** [submit_job_array(config, all_overrides, job_names, output_dirs,
    sweep_dir)] *)
Definition submit_job_array (all_overrides : list (list string))
           (job_names output_dirs : list string) (sweep_dir : string)
  : M (list JobReturn) :=
  c <- get_config ;;
  let array_name := config.job_array_name c in
  let array_config_file :=
    os_path_join sweep_dir (py_str array_name ++ "_array_config.json") in
  let config_data := build_config_data all_overrides job_names output_dirs in
  write_file array_config_file (Json config_data) ;;
  let array_size := Z.of_nat (List.length all_overrides) in
  array_script <-
    generate_array_script array_name array_size array_config_file sweep_dir ;;
  os_chmod array_script 493 ;;
  try_except
    (submitted <- subprocess_run_sbatch array_script true ;;
     array_job_id <- of_outcome (extract_job_id (cp_stdout submitted)) ;;
     ret (map (completed_return array_job_id)
              (seq 0 (Z.to_nat array_size))))
    is_CalledProcessError
    (ret (map (fun _ => failed_return) (seq 0 (Z.to_nat array_size)))).

(** A run of [m] from [w]: the outcome alone. *)
Definition result_of {A} (m : M A) (w : World) : Outcome A := fst (m w).
Definition world_after {A} (m : M A) (w : World) : World := snd (m w).

(** ** Worked runs *)

Definition demo_world (c : config.SlurmQueueConf) (o : ProcOutcome) : World :=
  {| slurm_config := c; argv0 := "/home/u/train.py";
     can_open := fun _ => true; files := []; modes := [];
     sbatch := fun _ => o |}.

(** The configuration [SlurmQueueConf(partition="gpu", nodes=1, mem="8G",
    job_array_name=..., ntasks=..., gpus=..., additional=...)], as the
    generated [__init__] fills it. *)
Definition conf_with (job_array_name ntasks gpus : pyval)
           (additional : PyDict.dict pyval) : config.SlurmQueueConf :=
  {| config._target_ := config._target_ config.defaults;
     config.partition := PStr "gpu";
     config.job_name := PNone; config.job_array_name := job_array_name;
     config.nodes := PInt 1; config.ntasks := ntasks;
     config.ntasks_per_node := PNone; config.cpus_per_task := PNone;
     config.mem := PStr "8G"; config.time := PNone;
     config.gres := PNone; config.gpus := gpus;
     config.account := PNone; config.qos := PNone; config.begin := PNone;
     config.mail_type := PNone; config.mail_user := PNone;
     config.additional := additional; config.setup := [] |}.

(** The configuration [SlurmQueueConf(partition="gpu",
    job_array_name="sweep", nodes=1, mem="8G")] *)
Definition array_conf : config.SlurmQueueConf :=
  conf_with (PStr "sweep") PNone PNone [].

(** [demo_world] with no path that can be opened for writing. *)
Definition closed_world (c : config.SlurmQueueConf) : World :=
  {| slurm_config := c; argv0 := "/home/u/train.py";
     can_open := fun _ => false; files := []; modes := [];
     sbatch := fun _ => NotFound |}.

(** A batch of three tasks. *)
Definition overrides3 : list (list string) := [["a=1"]; ["a=2"]; ["a=3"]].
Definition job_names3 : list string := ["train"; "train"; "train"].
Definition output_dirs3 : list string := ["multirun/0"; "multirun/1"; "multirun/2"].

(** The paths of the two artifacts of an array submission. *)
Definition array_config_path (w : World) (sweep_dir : string) : string :=
  os_path_join sweep_dir
    (py_str (config.job_array_name (slurm_config w)) ++ "_array_config.json").

Definition array_script_path (w : World) (sweep_dir : string) : string :=
  os_path_join sweep_dir
    (py_str (config.job_array_name (slurm_config w)) ++ "_array.sh").

(** A batch of [N] tasks that [submit_job_array] can store: the three lists
    have [N] entries each and both artifacts can be opened for writing. *)
Definition valid_batch (w : World) (N : nat)
           (all_overrides : list (list string))
           (job_names output_dirs : list string) (sweep_dir : string) : Prop :=
  List.length all_overrides = N /\ List.length job_names = N
  /\ List.length output_dirs = N
  /\ can_open w (array_config_path w sweep_dir) = true
  /\ can_open w (array_script_path w sweep_dir) = true.

(** Some character of [l] is not whitespace. *)
Definition has_nonspace (l : list ascii) : Prop :=
  exists c, In c l /\ PyStr.is_space c = false.

(** A world in which the task store of [array_conf] under [multirun] can
    be opened and nothing else can. *)
Definition store_only_world : World :=
  {| slurm_config := array_conf; argv0 := "/home/u/train.py";
     can_open := String.eqb "multirun/sweep_array_config.json";
     files := []; modes := []; sbatch := fun _ => NotFound |}.

(** The command [build_command] returns when [sys.argv[0]] resolves to
    [argv0]. *)
Definition command_line (argv0 : string) (overrides : list string) : string :=
  match filter_overrides overrides with
  | [] => "python " ++ argv0 ++ " hydra.launcher=basic"
  | kept => "python " ++ argv0 ++ " hydra.launcher=basic" ++ " "
            ++ PyStr.join " " kept
  end.

(** The configuration as [generate_slurm_script] renders it: with the job
    name of the call when it holds none. *)
Definition rendering_config (c : config.SlurmQueueConf) (job_name : string)
  : config.SlurmQueueConf :=
  if negb (is_not_None (config.job_name c))
  then config.set_job_name (PStr job_name) c
  else c.

(** The text of the single-job script of a call of [submit_job] in [w]. *)
Definition slurm_script_text (w : World) (overrides : list string)
           (job_name output_dir : string) : string :=
  PyStr.join PyStr.nl
    (slurm_script_lines (rendering_config (slurm_config w) job_name)
       output_dir (command_line (argv0 w) overrides)).

(** The attributes a script keeps from [vars(config)]: those that are not
    [None] and not named in [non_slurm], in the order of declaration. *)
Definition kept_attributes (non_slurm : list string)
           (c : config.SlurmQueueConf) : list (string * pyval) :=
  filter (fun kv => is_not_None (snd kv) && negb (in_list (fst kv) non_slurm))
         (config.vars c).

(** [additional] brings only new keys: no key twice, none that names an
    attribute, none among [reserved]. *)
Definition fresh_additional (c : config.SlurmQueueConf)
           (reserved : list string) : Prop :=
  NoDup (map fst (config.additional c))
  /\ forall k, In k (map fst (config.additional c)) ->
               ~ In k (map fst (config.vars c)) /\ ~ In k reserved.

(** ** slurm_launcher.py *)

(** What the launcher takes from Hydra and from [pathlib] once [setup] has
    run: [load_sweep_config overrides] gives, for one task, the pair of
    [str(sweep_config.hydra.sweep.subdir)] and
    [str(sweep_config.hydra.job.name)], and [path_div a b] is
    [str(Path(a) / b)]. A [Path] is kept as its [str]. *)
Record HydraEnv : Type := mkHydraEnv {
  load_sweep_config : list string -> string * string;
  path_div : string -> string -> string
}.

(** The world of the launcher: the world of [_core], the directories that
    [Path.mkdir] can create, and the log of those it created, last first. *)
Record Host : Type := mkHost {
  world : World;
  can_mkdir : string -> bool;
  made_dirs : list string
}.

Definition H (A : Type) : Type := Host -> Outcome A * Host.

Definition hret {A} (a : A) : H A := fun h => (Returned a, h).
Definition hbind {A B} (m : H A) (k : A -> H B) : H B :=
  fun h => match m h with
           | (Returned a, h') => k a h'
           | (Raised e, h') => (Raised e, h')
           end.

(** A computation of [_core] run by the launcher. *)
Definition lift {A} (m : M A) : H A :=
  fun h => match m (world h) with
           | (o, w') => (o, {| world := w'; can_mkdir := can_mkdir h;
                               made_dirs := made_dirs h |})
           end.

(** [path.mkdir(parents=True, exist_ok=True)] *)
Definition Path_mkdir (path : string) : H unit :=
  fun h =>
    if can_mkdir h path
    then (Returned tt, {| world := world h; can_mkdir := can_mkdir h;
                          made_dirs := path :: made_dirs h |})
    else (Raised (PermissionError path), h).

(** The output directory and the job name of one task. *)
Definition task_output_dir (self : HydraEnv) (sweep_dir : string)
           (overrides : list string) : string :=
  path_div self sweep_dir (fst (load_sweep_config self overrides)).

Definition task_job_name (self : HydraEnv) (overrides : list string) : string :=
  snd (load_sweep_config self overrides).

(** The loop of [_launch_job_array]: [job_names] and [output_dirs] are the
    lists filled so far. *)
Fixpoint collect_array_jobs (self : HydraEnv) (sweep_dir : string)
         (job_overrides : list (list string))
         (job_names output_dirs : list string)
  : H (list string * list string) :=
  match job_overrides with
  | [] => hret (job_names, output_dirs)
  | overrides :: rest =>
      let output_dir := task_output_dir self sweep_dir overrides in
      let job_name := task_job_name self overrides in
      let job_names := (job_names ++ [job_name])%list in
      let output_dirs := (output_dirs ++ [output_dir])%list in
      hbind (Path_mkdir output_dir) (fun _ =>
      collect_array_jobs self sweep_dir rest job_names output_dirs)
  end.

(** [SlurmLauncher._launch_job_array(job_overrides, initial_job_idx,
    sweep_dir)]. [initial_job_idx] only feeds the index that the loop
    computes and does not use. *)
Definition _launch_job_array (self : HydraEnv)
           (job_overrides : list (list string)) (initial_job_idx : Z)
           (sweep_dir : string) : H (list JobReturn) :=
  hbind (collect_array_jobs self sweep_dir job_overrides [] [])
        (fun lists =>
  hbind (lift (submit_job_array job_overrides (fst lists) (snd lists)
                                sweep_dir))
        (fun returns => hret returns)).

(** The loop of [_launch_individual_jobs]: [returns] is the list filled so
    far. *)
Fixpoint submit_individual_jobs (self : HydraEnv) (sweep_dir : string)
         (job_overrides : list (list string)) (returns : list JobReturn)
  : H (list JobReturn) :=
  match job_overrides with
  | [] => hret returns
  | overrides :: rest =>
      let output_dir := task_output_dir self sweep_dir overrides in
      hbind (Path_mkdir output_dir) (fun _ =>
      let job_name := task_job_name self overrides in
      hbind (lift (submit_job overrides job_name output_dir)) (fun r =>
      submit_individual_jobs self sweep_dir rest (returns ++ [r])%list))
  end.

(** [SlurmLauncher._launch_individual_jobs(job_overrides, initial_job_idx,
    sweep_dir)]. [initial_job_idx] only feeds the log messages. *)
Definition _launch_individual_jobs (self : HydraEnv)
           (job_overrides : list (list string)) (initial_job_idx : Z)
           (sweep_dir : string) : H (list JobReturn) :=
  submit_individual_jobs self sweep_dir job_overrides [].

(** The script file of one individually submitted task: its path and what
    [submit_job] writes there in a world with configuration and program
    path as in [w]. *)
Definition task_script_path (self : HydraEnv) (sweep_dir : string)
           (overrides : list string) : string :=
  os_path_join (task_output_dir self sweep_dir overrides)
               (task_job_name self overrides ++ ".sh").

Definition task_script (self : HydraEnv) (w : World) (sweep_dir : string)
           (overrides : list string) : string * FileContent :=
  (task_script_path self sweep_dir overrides,
   Text (slurm_script_text w overrides (task_job_name self overrides)
           (task_output_dir self sweep_dir overrides))).

(** The record [submit_job] returns for a task whose submission the
    scheduler acknowledges with the output [out]. *)
Definition accepted_record (out : string) : JobReturn :=
  match extract_job_id out with
  | Returned (Some J) =>
      {| status := COMPLETED; return_value := RJobId (Some J) |}
  | _ => {| status := COMPLETED; return_value := RNone |}
  end.

(** A task that the launcher can submit on its own in [h]: its directory
    can be made, its script can be written, and the scheduler accepts it,
    printing [out]. *)
Definition task_accepted (self : HydraEnv) (h : Host) (sweep_dir : string)
           (overrides : list string) (out : string) : Prop :=
  can_mkdir h (task_output_dir self sweep_dir overrides) = true
  /\ can_open (world h) (task_script_path self sweep_dir overrides) = true
  /\ sbatch (world h) (task_script_path self sweep_dir overrides)
     = Exited 0 out.

(** The record of one individually submitted task in a world whose
    scheduler answers as in [w]. *)
Definition task_record (self : HydraEnv) (w : World) (sweep_dir : string)
           (overrides : list string) : JobReturn :=
  match sbatch w (task_script_path self sweep_dir overrides) with
  | Exited _ out => accepted_record out
  | _ => JobReturn_new
  end.

(** The host [h] with more files written and more directories made. *)
Definition host_after (h : Host) (new_files : list (string * FileContent))
           (new_dirs : list string) : Host :=
  {| world :=
       {| slurm_config := slurm_config (world h); argv0 := argv0 (world h);
          can_open := can_open (world h);
          files := (new_files ++ files (world h))%list;
          modes := modes (world h); sbatch := sbatch (world h) |};
     can_mkdir := can_mkdir h;
     made_dirs := (new_dirs ++ made_dirs h)%list |}.

(** A launcher environment for the worked runs: task [a=<n>] runs in
    subdirectory [<n>] under the job name [train]. *)
Definition demo_env : HydraEnv :=
  {| load_sweep_config :=
       fun overrides =>
         (match overrides with
          | o :: _ => String.substring 2 (String.length o - 2) o
          | [] => "0"
          end, "train");
     path_div := fun a b => a ++ "/" ++ b |}.

Definition demo_host (w : World) : Host :=
  {| world := w; can_mkdir := fun _ => true; made_dirs := [] |}.

(** A world whose scheduler refuses the script of the second task and
    accepts every other one. *)
Definition refusing_world : World :=
  {| slurm_config := config.defaults; argv0 := "/home/u/train.py";
     can_open := fun _ => true; files := []; modes := [];
     sbatch := fun script =>
                 if String.eqb script "multirun/2/train.sh"
                 then Exited 1 "" else Exited 0 "Submitted batch job 7" |}.

(** A host in which the directory of the second task cannot be made. *)
Definition blocked_host : Host :=
  {| world := demo_world array_conf (Exited 0 "Submitted batch job 555");
     can_mkdir := fun path => negb (String.eqb path "multirun/2");
     made_dirs := [] |}.

(** Every character of [s] passes [p]. *)
Fixpoint all_chars (p : ascii -> bool) (s : string) : bool :=
  match s with
  | EmptyString => true
  | String c s' => p c && all_chars p s'
  end.

(** A word: not empty and free of whitespace. *)
Definition is_token (t : string) : bool :=
  negb (String.eqb t "") && all_chars (fun c => negb (PyStr.is_space c)) t.

(** The world with one more file written, and with one more mode set. *)
Definition add_file (path : string) (content : FileContent) (w : World)
  : World :=
  {| slurm_config := slurm_config w; argv0 := argv0 w;
     can_open := can_open w; files := (path, content) :: files w;
     modes := modes w; sbatch := sbatch w |}.

Definition add_mode (path : string) (mode : Z) (w : World) : World :=
  {| slurm_config := slurm_config w; argv0 := argv0 w;
     can_open := can_open w; files := files w;
     modes := (path, mode) :: modes w; sbatch := sbatch w |}.

(** The text of the array script for a batch of [n] tasks in world [w]. *)
Definition array_script_text (w : World) (n : nat) (sweep_dir : string)
  : string :=
  PyStr.join PyStr.nl
    (array_script_lines (slurm_config w)
       (config.job_array_name (slurm_config w)) (Z.of_nat n)
       (array_config_path w sweep_dir) (argv0 w)).

(** * Properties *)

(** ** Strings *)

Example splitlines_crlf :
  PyStr.splitlines
    ("a" ++ String (ascii_of_nat 13) (String (ascii_of_nat 10) "b")
         ++ PyStr.nl)
  = ["a"; "b"].
Proof. reflexivity. Qed.

Example split_runs :
  PyStr.split "  Submitted batch   job 555 "
  = ["Submitted"; "batch"; "job"; "555"].
Proof. reflexivity. Qed.

Example strip_both : PyStr.strip "  a b  " = "a b".
Proof. reflexivity. Qed.

Example str_of_int_minus_one : PyStr.str_of_int (-1) = "-1".
Proof. reflexivity. Qed.

Example quote_plain : shlex.quote "gpu:2" = "gpu:2".
Proof. reflexivity. Qed.

Example quote_space : shlex.quote "a b" = "'a b'".
Proof. reflexivity. Qed.

Example as_sbatch_flag_valued :
  as_sbatch_flag "mail_user" (PStr "me@example.org")
  = "#SBATCH --mail-user=me@example.org".
Proof. reflexivity. Qed.

(** The last acknowledgment line gives the id. *)
Example extract_job_id_last_line :
  extract_job_id
    ("Submitted batch job 41" ++ PyStr.nl ++ "note" ++ PyStr.nl
       ++ "  Submitted batch job 42  ")
  = Returned (Some "42").
Proof. reflexivity. Qed.

Lemma startswith_head (c : ascii) (p s : string) :
  PyStr.startswith (String c p) s = true -> exists s', s = String c s'.
Proof.
  destruct s as [|c' s']; simpl; [discriminate|].
  destruct (Ascii.ascii_dec c c') as [->|]; [eauto | discriminate].
Qed.

(** A string that holds a phrase starting with [c] holds [c]. *)
Lemma contains_head (c : ascii) (p s : string) :
  PyStr.contains (String c p) s = true -> In c (list_ascii_of_string s).
Proof.
  induction s as [|c' s' IH].
  - simpl. discriminate.
  - intros H. cbn [PyStr.contains] in H.
    apply orb_true_iff in H as [H|H].
    + apply startswith_head in H as [s'' E]. injection E as -> _.
      simpl. auto.
    + simpl. right. auto.
Qed.

Lemma lstrip_chars_nonspace (l : list ascii) :
  has_nonspace l -> has_nonspace (PyStr.lstrip_chars l).
Proof.
  induction l as [|c l IH]; intros (x & Hin & Hx); simpl.
  - destruct Hin.
  - destruct (PyStr.is_space c) eqn:E.
    + apply IH. destruct Hin as [->|Hin]; [congruence|]. exists x; auto.
    + exists x; auto.
Qed.

Lemma rev_nonspace (l : list ascii) : has_nonspace l -> has_nonspace (rev l).
Proof.
  intros (x & Hin & Hx). exists x. split; [|assumption].
  now apply in_rev in Hin.
Qed.

Lemma strip_nonspace (s : string) :
  has_nonspace (list_ascii_of_string s) ->
  has_nonspace (list_ascii_of_string (PyStr.strip s)).
Proof.
  intros H. unfold PyStr.strip, PyStr.rstrip_chars.
  rewrite list_ascii_of_string_of_list_ascii.
  apply rev_nonspace, lstrip_chars_nonspace, rev_nonspace.
  now apply lstrip_chars_nonspace.
Qed.

Lemma append_char_not_empty (cur : string) (c : ascii) :
  String.eqb (cur ++ String c "") "" = false.
Proof. destruct cur; reflexivity. Qed.

(** [split] yields no token only on a string of whitespace. *)
Lemma split_from_nil (s cur : string) :
  PyStr.split_from cur s = [] ->
  cur = "" /\ forall c, In c (list_ascii_of_string s) -> PyStr.is_space c = true.
Proof.
  revert cur. induction s as [|c s IH]; intros cur H; simpl in H.
  - destruct (String.eqb_spec cur ""); [|discriminate].
    split; [assumption | intros c []].
  - destruct (PyStr.is_space c) eqn:Ec.
    + destruct (String.eqb_spec cur ""); [|discriminate].
      apply IH in H as [_ H]. split; [assumption|].
      intros x [<-|Hx]; auto.
    + apply IH in H as [H _]. destruct cur; discriminate.
Qed.

(** No token of [split] is empty. *)
Lemma split_from_tokens (s cur t : string) :
  In t (PyStr.split_from cur s) -> t <> "".
Proof.
  revert cur. induction s as [|c s IH]; intros cur H; simpl in H.
  - destruct (String.eqb_spec cur ""); [destruct H|].
    destruct H as [<-|[]]; assumption.
  - destruct (PyStr.is_space c).
    + destruct (String.eqb_spec cur ""); [eauto|].
      destruct H as [<-|H]; eauto.
    + eauto.
Qed.

(** On a line that holds the acknowledgment phrase, the last token exists
    and is not empty. *)
Lemma last_token_of_ack (line : string) :
  PyStr.contains "Submitted batch job" line = true ->
  exists t, last_token line = Returned t /\ t <> "".
Proof.
  intros H. apply contains_head in H.
  assert (Hn : has_nonspace (list_ascii_of_string (PyStr.strip line))).
  { apply strip_nonspace. exists "S"%char. split; [assumption|reflexivity]. }
  unfold last_token.
  destruct (rev (PyStr.split (PyStr.strip line))) as [|t l] eqn:E.
  - apply (f_equal (@rev string)) in E. rewrite rev_involutive in E.
    simpl in E. apply split_from_nil in E as [_ E].
    destruct Hn as (c & Hc & Hs). apply E in Hc. congruence.
  - exists t. split; [reflexivity|].
    apply (split_from_tokens (PyStr.strip line) "").
    apply in_rev. fold (PyStr.split (PyStr.strip line)). rewrite E.
    now left.
Qed.

(** The scan for the job id never raises, and what it finds is [None] or a
    string that is not empty. *)
Lemma scan_job_id_returns (lines : list string) (job_id : option string) :
  (job_id = None \/ truthy_id job_id = true) ->
  exists r, scan_job_id job_id lines = Returned r
            /\ (r = None \/ truthy_id r = true).
Proof.
  revert job_id. induction lines as [|line rest IH]; intros job_id Hj; simpl.
  - eauto.
  - destruct (PyStr.contains "Submitted batch job" line) eqn:E.
    + destruct (last_token_of_ack line E) as (t & -> & Ht).
      apply IH. right. simpl.
      destruct (String.eqb_spec t ""); [contradiction | reflexivity].
    + apply IH. assumption.
Qed.

Lemma extract_job_id_returns (stdout : string) :
  exists r, extract_job_id stdout = Returned r
            /\ (r = None \/ truthy_id r = true).
Proof. apply scan_job_id_returns. now left. Qed.

(** ** Running [submit_job_array] *)

Ltac run_step :=
  cbv [bind ret raise get_config get_argv0 set_config write_file os_chmod
       of_outcome try_except subprocess_run_sbatch
       slurm_config argv0 can_open files modes sbatch].

(** The outcome of [submit_job_array] once both artifacts are written. *)
Lemma submit_job_array_result (w : World)
      (all_overrides : list (list string))
      (job_names output_dirs : list string) (sweep_dir : string) :
  can_open w (array_config_path w sweep_dir) = true ->
  can_open w (array_script_path w sweep_dir) = true ->
  result_of (submit_job_array all_overrides job_names output_dirs sweep_dir) w
  = match sbatch w (array_script_path w sweep_dir) with
    | Exited rc out =>
        if Z.eqb rc 0
        then match extract_job_id out with
             | Returned j =>
                 Returned (map (completed_return j)
                               (seq 0 (List.length all_overrides)))
             | Raised e => Raised e
             end
        else Returned (map (fun _ => failed_return)
                           (seq 0 (List.length all_overrides)))
    | NotFound => Raised (FileNotFoundError "sbatch")
    | NotPermitted => Raised (PermissionError "sbatch")
    end.
Proof.
  intros Hc Hs. unfold array_config_path, array_script_path in *.
  unfold result_of, submit_job_array, generate_array_script.
  destruct w as [c a0 co fs ms sb]. cbn [slurm_config can_open sbatch] in *.
  run_step. rewrite Hc. run_step. rewrite Hs. run_step. rewrite Nat2Z.id.
  destruct (sb _) as [rc out| |]; cbn [fst is_CalledProcessError];
    try reflexivity.
  destruct (Z.eqb rc 0); cbn [andb negb fst is_CalledProcessError cp_stdout];
    [|reflexivity].
  destruct (extract_job_id_returns out) as (r & -> & _). reflexivity.
Qed.

(** The files [submit_job_array] leaves: the task store, then the script. *)
Lemma submit_job_array_files (w : World)
      (all_overrides : list (list string))
      (job_names output_dirs : list string) (sweep_dir : string) :
  can_open w (array_config_path w sweep_dir) = true ->
  can_open w (array_script_path w sweep_dir) = true ->
  files (world_after
           (submit_job_array all_overrides job_names output_dirs sweep_dir) w)
  = (array_script_path w sweep_dir,
     Text (PyStr.join PyStr.nl
             (array_script_lines (slurm_config w)
                (config.job_array_name (slurm_config w))
                (Z.of_nat (List.length all_overrides))
                (array_config_path w sweep_dir) (argv0 w))))
    :: (array_config_path w sweep_dir,
        Json (build_config_data all_overrides job_names output_dirs))
    :: files w.
Proof.
  intros Hc Hs. unfold array_config_path, array_script_path in *.
  unfold world_after, submit_job_array, generate_array_script.
  destruct w as [c a0 co fs ms sb].
  cbn [slurm_config can_open sbatch files argv0] in *.
  run_step. rewrite Hc. run_step. rewrite Hs. run_step.
  destruct (sb _) as [rc out| |]; cbn [snd is_CalledProcessError files];
    try reflexivity.
  destruct (Z.eqb rc 0);
    cbn [andb negb snd is_CalledProcessError cp_stdout files];
    [|reflexivity].
  destruct (extract_job_id_returns out) as (r & -> & _). reflexivity.
Qed.

Lemma nth_error_map_seq {A} (f : nat -> A) (n i : nat) :
  i < n -> nth_error (map f (seq 0 n)) i = Some (f i).
Proof.
  intros H. rewrite nth_error_map, nth_error_seq.
  destruct (Nat.ltb_spec i n); [reflexivity | lia].
Qed.

Lemma map_const_seq {A} (a : A) (start n : nat) :
  map (fun _ => a) (seq start n) = repeat a n.
Proof.
  revert start. induction n as [|n IH]; intros start; simpl;
    [reflexivity | now rewrite IH].
Qed.

Lemma zip3_length {A B C} (a : list A) (b : list B) (c : list C) :
  List.length (zip3 a b c)
  = Nat.min (List.length a) (Nat.min (List.length b) (List.length c)).
Proof.
  revert b c. induction a as [|x a IH]; intros [|y b] [|z c]; simpl;
    rewrite ?IH; reflexivity.
Qed.

Lemma enumerate_from_length {A} (l : list A) (start : nat) :
  List.length (enumerate_from start l) = List.length l.
Proof.
  revert start. induction l as [|x l IH]; intros start; simpl;
    [reflexivity | now rewrite IH].
Qed.

Lemma build_config_data_length (all_overrides : list (list string))
      (job_names output_dirs : list string) :
  List.length (build_config_data all_overrides job_names output_dirs)
  = Nat.min (List.length all_overrides)
            (Nat.min (List.length job_names) (List.length output_dirs)).
Proof.
  unfold build_config_data.
  now rewrite length_map, enumerate_from_length, zip3_length.
Qed.

(** ** The array path: one record per task *)



(** C2. When the scheduler accepts the array (exit status 0) and the job id
    [J] is read from its acknowledgment, record [i] is COMPLETED and carries
    [J_i] for every [i] below [N]; when no id is read, every record is
    COMPLETED with no id. Reading the id never fails. *)
Theorem submit_job_array_derived_ids
        (w : World) (N : nat) (all_overrides : list (list string))
        (job_names output_dirs : list string) (sweep_dir : string)
        (out : string) :
  valid_batch w N all_overrides job_names output_dirs sweep_dir ->
  sbatch w (array_script_path w sweep_dir) = Exited 0 out ->
  exists returns found,
    result_of (submit_job_array all_overrides job_names output_dirs sweep_dir) w
    = Returned returns
    /\ extract_job_id out = Returned found
    /\ List.length returns = N
    /\ (forall J, found = Some J ->
         forall i, i < N ->
           nth_error returns i
           = Some {| status := COMPLETED;
                     return_value :=
                       RJobId (Some (J ++ "_"
                                       ++ PyStr.str_of_int (Z.of_nat i))) |})
    /\ (found = None ->
         forall i, i < N ->
           nth_error returns i
           = Some {| status := COMPLETED; return_value := RJobId None |}).
Proof.
  intros (Ha & _ & _ & Hc & Hs) Hrun.
  rewrite (submit_job_array_result _ _ _ _ _ Hc Hs), Hrun, Ha.
  cbn [Z.eqb].
  destruct (extract_job_id_returns out) as (found & -> & Hf).
  exists (map (completed_return found) (seq 0 N)), found.
  repeat split.
  - now rewrite length_map, length_seq.
  - intros J -> i Hi. rewrite nth_error_map_seq by assumption.
    unfold completed_return. destruct Hf as [Hf|Hf]; [discriminate|].
    now rewrite Hf.
  - intros -> i Hi. now rewrite nth_error_map_seq by assumption.
Qed.

Lemma submit_job_array_derived_ids_witness :
  exists returns found,
    result_of (submit_job_array overrides3 job_names3 output_dirs3 "multirun")
              (demo_world array_conf (Exited 0 "Submitted batch job 555"))
    = Returned returns
    /\ extract_job_id "Submitted batch job 555" = Returned found
    /\ List.length returns = 3
    /\ (forall J, found = Some J ->
         forall i, i < 3 ->
           nth_error returns i
           = Some {| status := COMPLETED;
                     return_value :=
                       RJobId (Some (J ++ "_"
                                       ++ PyStr.str_of_int (Z.of_nat i))) |})
    /\ (found = None ->
         forall i, i < 3 ->
           nth_error returns i
           = Some {| status := COMPLETED; return_value := RJobId None |}).
Proof.
  apply (submit_job_array_derived_ids
           (demo_world array_conf (Exited 0 "Submitted batch job 555")) 3
           overrides3 job_names3 output_dirs3 "multirun"
           "Submitted batch job 555").
  - repeat split; reflexivity.
  - reflexivity.
Defined.

(** The example of the specification: three tasks, acknowledgment
    [Submitted batch job 555]. *)
Example submit_job_array_555 :
  result_of (submit_job_array overrides3 job_names3 output_dirs3 "multirun")
            (demo_world array_conf (Exited 0 "Submitted batch job 555"))
  = Returned
      [ {| status := COMPLETED; return_value := RJobId (Some "555_0") |};
        {| status := COMPLETED; return_value := RJobId (Some "555_1") |};
        {| status := COMPLETED; return_value := RJobId (Some "555_2") |} ].
Proof. reflexivity. Qed.

(** An acknowledgment without the phrase: completed, no id. *)
Example submit_job_array_no_id :
  result_of (submit_job_array overrides3 job_names3 output_dirs3 "multirun")
            (demo_world array_conf (Exited 0 "queued"))
  = Returned (repeat {| status := COMPLETED; return_value := RJobId None |} 3).
Proof. reflexivity. Qed.

(** ** The array path: what the [except] clause catches *)

(** C3, as stated, fails: when the [sbatch] program cannot be found, the
    exception of the process invocation leaves [submit_job_array]; no list
    of records is returned. *)
Lemma submit_job_array_missing_sbatch_propagates :
  result_of (submit_job_array overrides3 job_names3 output_dirs3 "multirun")
            (demo_world array_conf NotFound)
  = Raised (FileNotFoundError "sbatch")
  /\ forall returns,
      result_of (submit_job_array overrides3 job_names3 output_dirs3 "multirun")
                (demo_world array_conf NotFound)
      <> Returned returns.
Proof. split; [reflexivity | discriminate]. Qed.

(** C3, amended. A non-zero exit of the scheduler is caught inside
    [submit_job_array] and becomes [N] FAILED records with no id. A process
    that cannot be started (program not found, or not permitted) raises an
    exception that the [except] clause does not name, and it reaches the
    caller. *)
Theorem submit_job_array_catches_nonzero_exit
        (w : World) (N : nat) (all_overrides : list (list string))
        (job_names output_dirs : list string) (sweep_dir : string) :
  valid_batch w N all_overrides job_names output_dirs sweep_dir ->
  (forall rc out,
      sbatch w (array_script_path w sweep_dir) = Exited rc out -> rc <> 0%Z ->
      result_of
        (submit_job_array all_overrides job_names output_dirs sweep_dir) w
      = Returned (repeat {| status := FAILED; return_value := RNone |} N))
  /\ (sbatch w (array_script_path w sweep_dir) = NotFound ->
      result_of
        (submit_job_array all_overrides job_names output_dirs sweep_dir) w
      = Raised (FileNotFoundError "sbatch"))
  /\ (sbatch w (array_script_path w sweep_dir) = NotPermitted ->
      result_of
        (submit_job_array all_overrides job_names output_dirs sweep_dir) w
      = Raised (PermissionError "sbatch")).
Proof.
  intros (Ha & _ & _ & Hc & Hs).
  rewrite (submit_job_array_result _ _ _ _ _ Hc Hs), Ha.
  repeat split.
  - intros rc out -> Hrc. apply Z.eqb_neq in Hrc. rewrite Hrc.
    now rewrite map_const_seq.
  - now intros ->.
  - now intros ->.
Qed.

Lemma submit_job_array_catches_nonzero_exit_witness :
  result_of (submit_job_array overrides3 job_names3 output_dirs3 "multirun")
            (demo_world array_conf (Exited 1 "sbatch: error: invalid partition"))
  = Returned (repeat {| status := FAILED; return_value := RNone |} 3).
Proof.
  refine (proj1 (submit_job_array_catches_nonzero_exit
                   (demo_world array_conf
                      (Exited 1 "sbatch: error: invalid partition")) 3
                   overrides3 job_names3 output_dirs3 "multirun" _)
                1%Z "sbatch: error: invalid partition" _ _).
  - repeat split; reflexivity.
  - reflexivity.
  - discriminate.
Defined.

(** ** The array path: lists of unequal length *)

(** C9, as stated, fails: two override lists with one job name and one
    output directory are not rejected. Two records are returned, and the
    task store holds the one descriptor that [zip] could pair. *)
Lemma submit_job_array_accepts_unequal_lists :
  result_of (submit_job_array [["a=1"]; ["a=2"]] ["train"] ["multirun/0"]
                              "multirun")
            (demo_world array_conf (Exited 0 "Submitted batch job 9"))
  = Returned
      [ {| status := COMPLETED; return_value := RJobId (Some "9_0") |};
        {| status := COMPLETED; return_value := RJobId (Some "9_1") |} ]
  /\ In ("multirun/sweep_array_config.json",
         Json [ {| tc_overrides := "a=1"; tc_job_name := "train";
                   tc_output_dir := "multirun/0"; tc_task_id := 0 |} ])
        (files (world_after
                  (submit_job_array [["a=1"]; ["a=2"]] ["train"]
                                    ["multirun/0"] "multirun")
                  (demo_world array_conf (Exited 0 "Submitted batch job 9")))).
Proof. split; [reflexivity | right; left; reflexivity]. Qed.

(** C9, amended. [submit_job_array] compares no lengths. It pairs the three
    lists with [zip], so the task store holds as many descriptors as the
    shortest list has entries, numbered from 0, and the number of records
    returned follows the overrides list alone. *)
Theorem submit_job_array_pairs_with_zip
        (w : World) (all_overrides : list (list string))
        (job_names output_dirs : list string) (sweep_dir : string)
        (rc : Z) (out : string) :
  can_open w (array_config_path w sweep_dir) = true ->
  can_open w (array_script_path w sweep_dir) = true ->
  sbatch w (array_script_path w sweep_dir) = Exited rc out ->
  let run := submit_job_array all_overrides job_names output_dirs sweep_dir in
  let config_data := build_config_data all_overrides job_names output_dirs in
  (exists returns,
      result_of run w = Returned returns
      /\ List.length returns = List.length all_overrides)
  /\ In (array_config_path w sweep_dir, Json config_data)
        (files (world_after run w))
  /\ List.length config_data
     = Nat.min (List.length all_overrides)
               (Nat.min (List.length job_names) (List.length output_dirs))
  /\ map tc_task_id config_data = seq 0 (List.length config_data).
Proof.
  intros Hc Hs Hrun run config_data. subst run config_data.
  repeat split.
  - rewrite (submit_job_array_result _ _ _ _ _ Hc Hs), Hrun.
    destruct (Z.eqb rc 0).
    + destruct (extract_job_id_returns out) as (J & -> & _).
      eexists. split; [reflexivity|]. now rewrite length_map, length_seq.
    + eexists. split; [reflexivity|]. now rewrite length_map, length_seq.
  - rewrite (submit_job_array_files _ _ _ _ _ Hc Hs). right. now left.
  - apply build_config_data_length.
  - unfold build_config_data. rewrite length_map, map_map.
    generalize (zip3 all_overrides job_names output_dirs) as l.
    generalize 0 as start.
    intros start l. revert start.
    induction l as [|[[o j] d] l IH]; intros start; simpl;
      [reflexivity | now rewrite IH].
Qed.

Lemma submit_job_array_pairs_with_zip_witness :
  let run := submit_job_array [["a=1"]; ["a=2"]] ["train"] ["multirun/0"]
                              "multirun" in
  let w := demo_world array_conf (Exited 0 "Submitted batch job 9") in
  let config_data :=
    build_config_data [["a=1"]; ["a=2"]] ["train"] ["multirun/0"] in
  (exists returns, result_of run w = Returned returns
                   /\ List.length returns = 2)
  /\ In ("multirun/sweep_array_config.json", Json config_data)
        (files (world_after run w))
  /\ List.length config_data = 1
  /\ map tc_task_id config_data = [0].
Proof.
  apply (submit_job_array_pairs_with_zip
           (demo_world array_conf (Exited 0 "Submitted batch job 9"))
           [["a=1"]; ["a=2"]] ["train"] ["multirun/0"] "multirun"
           0%Z "Submitted batch job 9"); reflexivity.
Defined.

(** ** The single-job path *)

(** Whatever the world, a record that [submit_job] returns is COMPLETED: the
    branch that sets FAILED is behind [check=True], which raises first. *)
Lemma submit_job_returns_only_completed
      (w : World) (overrides : list string) (job_name output_dir : string)
      (r : JobReturn) :
  result_of (submit_job overrides job_name output_dir) w = Returned r ->
  status r = COMPLETED.
Proof.
  unfold result_of, submit_job, build_command, generate_slurm_script.
  destruct w as [c a0 co fs ms sb]. run_step.
  destruct (negb (is_not_None (config.job_name c))); run_step.
  - destruct (co _); run_step; cbn [fst]; [|discriminate].
    destruct (sb _) as [rc out| |]; cbn [fst]; try discriminate.
    destruct (Z.eqb rc 0) eqn:E; cbn [andb negb fst cp_returncode cp_stdout];
      [|discriminate].
    rewrite E. destruct (extract_job_id out); cbn [fst]; [|discriminate].
    intros [= <-]. reflexivity.
  - destruct (co _); run_step; cbn [fst]; [|discriminate].
    destruct (sb _) as [rc out| |]; cbn [fst]; try discriminate.
    destruct (Z.eqb rc 0) eqn:E; cbn [andb negb fst cp_returncode cp_stdout];
      [|discriminate].
    rewrite E. destruct (extract_job_id out); cbn [fst]; [|discriminate].
    intros [= <-]. reflexivity.
Qed.

(** C4 does not hold of the code. When the scheduler exits with a status
    other than 0, [submit_job] raises [CalledProcessError]; it returns no
    record, FAILED or other. *)
Theorem submit_job_nonzero_exit_raises
        (w : World) (overrides : list string) (job_name output_dir : string)
        (rc : Z) (out : string) :
  can_open w (os_path_join output_dir (job_name ++ ".sh")) = true ->
  sbatch w (os_path_join output_dir (job_name ++ ".sh")) = Exited rc out ->
  rc <> 0%Z ->
  result_of (submit_job overrides job_name output_dir) w
  = Raised (CalledProcessError rc)
  /\ forall r,
      result_of (submit_job overrides job_name output_dir) w <> Returned r.
Proof.
  intros Hopen Hrun Hrc. apply Z.eqb_neq in Hrc.
  assert (E : result_of (submit_job overrides job_name output_dir) w
              = Raised (CalledProcessError rc)).
  { unfold result_of, submit_job, build_command, generate_slurm_script.
    destruct w as [c a0 co fs ms sb]. cbn [can_open sbatch] in *. run_step.
    destruct (negb (is_not_None (config.job_name c))); run_step;
      rewrite Hopen; run_step; rewrite Hrun, Hrc; reflexivity. }
  split; [exact E | intros r; rewrite E; discriminate].
Qed.

Lemma submit_job_nonzero_exit_raises_witness :
  result_of (submit_job ["a=1"] "train" "multirun/0")
            (demo_world config.defaults (Exited 1 ""))
  = Raised (CalledProcessError 1)
  /\ forall r,
      result_of (submit_job ["a=1"] "train" "multirun/0")
                (demo_world config.defaults (Exited 1 ""))
      <> Returned r.
Proof.
  apply (submit_job_nonzero_exit_raises
           (demo_world config.defaults (Exited 1 ""))
           ["a=1"] "train" "multirun/0" 1 "").
  - reflexivity.
  - reflexivity.
  - discriminate.
Defined.

(** With exit status 0 the record is COMPLETED and carries the id. *)
Example submit_job_accepted :
  result_of (submit_job ["a=1"] "train" "multirun/0")
            (demo_world config.defaults (Exited 0 "Submitted batch job 7"))
  = Returned {| status := COMPLETED; return_value := RJobId (Some "7") |}.
Proof. reflexivity. Qed.

(** ** Construction of the configuration *)

(** C5. A configuration with both [job_name] and [job_array_name], or with
    both [gpus] and [gres], is refused when it is constructed: the
    constructor raises [ValueError] and leaves the world as it was, so no
    file is written; the launcher never holds such a configuration, and
    nothing that would follow the construction runs. *)
Theorem SlurmQueueConf_exclusive_fields_rejected
        (fields : config.SlurmQueueConf) (w : World) :
  (config.job_name fields <> PNone /\ config.job_array_name fields <> PNone)
  \/ (config.gpus fields <> PNone /\ config.gres fields <> PNone) ->
  exists msg,
    SlurmQueueConf_new fields w = (Raised (ValueError msg), w)
    /\ SlurmLauncher_init fields w = (Raised (ValueError msg), w)
    /\ forall (B : Type) (rest : M B),
        (SlurmLauncher_init fields ;; rest) w = (Raised (ValueError msg), w).
Proof.
  intros H.
  assert (Hnew : exists msg,
             SlurmQueueConf_new fields w = (Raised (ValueError msg), w)).
  { unfold SlurmQueueConf_new, __post_init__. run_step.
    destruct fields as [t p jn jan n nt ntn cpt m ti gr gp ac q b mt mu ad su].
    cbn [config.job_name config.job_array_name config.gpus config.gres
         config.set_gres] in *.
    destruct H as [[Hj Ha]|[Hg Hr]].
    - destruct jn; try contradiction; destruct jan; try contradiction;
        destruct gp; destruct gr; cbn; eauto.
    - destruct gp; try contradiction; destruct gr; try contradiction;
        cbn; eauto. }
  destruct Hnew as (msg & Hnew). exists msg.
  assert (Hinit : SlurmLauncher_init fields w = (Raised (ValueError msg), w)).
  { unfold SlurmLauncher_init, bind. now rewrite Hnew. }
  repeat split; [assumption | assumption |].
  intros B rest. unfold bind at 1. now rewrite Hinit.
Qed.

Lemma SlurmQueueConf_exclusive_fields_rejected_witness :
  exists msg,
    SlurmQueueConf_new (config.set_job_name (PStr "train") array_conf)
                       (demo_world config.defaults NotFound)
    = (Raised (ValueError msg), demo_world config.defaults NotFound)
    /\ SlurmLauncher_init (config.set_job_name (PStr "train") array_conf)
                          (demo_world config.defaults NotFound)
       = (Raised (ValueError msg), demo_world config.defaults NotFound)
    /\ forall (B : Type) (rest : M B),
        (SlurmLauncher_init (config.set_job_name (PStr "train") array_conf)
         ;; rest) (demo_world config.defaults NotFound)
        = (Raised (ValueError msg), demo_world config.defaults NotFound).
Proof.
  apply (SlurmQueueConf_exclusive_fields_rejected
           (config.set_job_name (PStr "train") array_conf)
           (demo_world config.defaults NotFound)).
  left. split; discriminate.
Defined.

(** Both messages, at concrete fields. *)
Example post_init_gpus_and_gres :
  result_of (SlurmQueueConf_new
               (config.set_gres (PStr "gpu:a100:1")
                  {| config._target_ := PStr "t"; config.partition := PStr "gpu";
                     config.job_name := PNone; config.job_array_name := PNone;
                     config.nodes := PNone; config.ntasks := PNone;
                     config.ntasks_per_node := PNone;
                     config.cpus_per_task := PNone;
                     config.mem := PNone; config.time := PNone;
                     config.gres := PNone; config.gpus := PInt 2;
                     config.account := PNone; config.qos := PNone;
                     config.begin := PNone; config.mail_type := PNone;
                     config.mail_user := PNone;
                     config.additional := []; config.setup := [] |}))
            (demo_world config.defaults NotFound)
  = Raised (ValueError "Cannot specify both 'gpus' and 'gres'").
Proof. reflexivity. Qed.

Example post_init_both_names :
  result_of (SlurmQueueConf_new (config.set_job_name (PStr "train") array_conf))
            (demo_world config.defaults NotFound)
  = Raised (ValueError "Cannot specify both 'job_name' and 'job_array_name'").
Proof. reflexivity. Qed.

(** ** The single-job script and the shared configuration *)

Lemma set_job_name_same (c : config.SlurmQueueConf) :
  config.set_job_name (config.job_name c) c = c.
Proof. destruct c; reflexivity. Qed.

Lemma set_job_name_twice (v v' : pyval) (c : config.SlurmQueueConf) :
  config.set_job_name v' (config.set_job_name v c) = config.set_job_name v' c.
Proof. destruct c; reflexivity. Qed.

(** C7. When [generate_slurm_script] returns, which it does whenever the
    script file can be opened, the shared configuration is the one it was
    before the call: [job_name] has its earlier value, also when it was
    [None] and was set for the rendering, and every other field is
    untouched. The script written in between is rendered from the
    configuration that carries the job name. *)
Theorem generate_slurm_script_restores_config
        (w : World) (job_name output_dir command : string) :
  can_open w (os_path_join output_dir (job_name ++ ".sh")) = true ->
  let run := generate_slurm_script job_name output_dir command in
  let during :=
    if negb (is_not_None (config.job_name (slurm_config w)))
    then config.set_job_name (PStr job_name) (slurm_config w)
    else slurm_config w in
  result_of run w = Returned (os_path_join output_dir (job_name ++ ".sh"))
  /\ slurm_config (world_after run w) = slurm_config w
  /\ config.job_name (slurm_config (world_after run w))
     = config.job_name (slurm_config w)
  /\ files (world_after run w)
     = (os_path_join output_dir (job_name ++ ".sh"),
        Text (PyStr.join PyStr.nl
                (slurm_script_lines during output_dir command)))
       :: files w.
Proof.
  intros Hopen run during. subst run during.
  unfold result_of, world_after, generate_slurm_script.
  destruct w as [c a0 co fs ms sb].
  cbn [slurm_config can_open files] in *. run_step.
  destruct (negb (is_not_None (config.job_name c))); run_step;
    rewrite Hopen; run_step; cbn [fst snd slurm_config files];
    rewrite ?set_job_name_twice, set_job_name_same; auto.
Qed.

Lemma generate_slurm_script_restores_config_witness :
  let w := demo_world config.defaults (Exited 0 "Submitted batch job 7") in
  let run := generate_slurm_script "train" "multirun/0" "python train.py" in
  result_of run w = Returned "multirun/0/train.sh"
  /\ slurm_config (world_after run w) = config.defaults
  /\ config.job_name (slurm_config (world_after run w)) = PNone
  /\ files (world_after run w)
     = [("multirun/0/train.sh",
         Text (PyStr.join PyStr.nl
                 (slurm_script_lines
                    (config.set_job_name (PStr "train") config.defaults)
                    "multirun/0" "python train.py")))].
Proof.
  apply (generate_slurm_script_restores_config
           (demo_world config.defaults (Exited 0 "Submitted batch job 7"))
           "train" "multirun/0" "python train.py").
  reflexivity.
Defined.

(** The restore is the last statement and not in a [finally]: when the
    script file cannot be opened the call raises, and only then does the
    job name set for the rendering stay behind. *)
Example generate_slurm_script_raising_open :
  let run := generate_slurm_script "train" "multirun/0" "python train.py" in
  result_of run (closed_world config.defaults)
  = Raised (FileNotFoundError "multirun/0/train.sh")
  /\ config.job_name
       (slurm_config (world_after run (closed_world config.defaults)))
     = PStr "train".
Proof. split; reflexivity. Qed.

(** The directive that names the job is there although the configuration
    holds no job name before and after. *)
Example generate_slurm_script_names_job :
  slurm_script_lines (config.set_job_name (PStr "train") config.defaults)
                     "multirun/0" "python train.py"
  = [ "#!/bin/bash"; " "; "# SLURM parameters";
      "#SBATCH --partition=default";
      "#SBATCH --job-name=train";
      "#SBATCH --output=multirun/0/train_%j.out";
      "#SBATCH --error=multirun/0/train_%j.err";
      " "; "# Run the command"; "python train.py" ].
Proof. reflexivity. Qed.

(** ** Dictionaries *)

Section DictFacts.
Context {V : Type}.
Implicit Types (d items : PyDict.dict V) (k : string) (v : V).

Lemma dict_mem_false_keys k d :
  PyDict.mem k d = false <-> ~ In k (map fst d).
Proof.
  induction d as [|[k' v'] d IH]; simpl.
  - tauto.
  - rewrite orb_false_iff, IH. destruct (String.eqb_spec k' k); split.
    + intros [? _]; discriminate.
    + intros H; exfalso; auto.
    + intros [_ H] [?|?]; auto.
    + intros H; split; auto.
Qed.

Lemma dict_get_In k v d : PyDict.get k d = Some v -> In (k, v) d.
Proof.
  induction d as [|[k' v'] d IH]; simpl; [discriminate|].
  destruct (String.eqb_spec k' k) as [->|]; [intros [= ->]|]; auto.
Qed.

Lemma dict_get_not_mem k d : PyDict.mem k d = false -> PyDict.get k d = None.
Proof.
  induction d as [|[k' v'] d IH]; simpl; [reflexivity|].
  destruct (String.eqb k' k); [discriminate | exact IH].
Qed.

Lemma dict_get_set_same k v d : PyDict.get k (PyDict.set k v d) = Some v.
Proof.
  induction d as [|[k' v'] d IH]; simpl.
  - now rewrite String.eqb_refl.
  - destruct (String.eqb k' k) eqn:E; simpl; rewrite E; auto.
Qed.

Lemma dict_get_set_other k k' v d :
  k <> k' -> PyDict.get k (PyDict.set k' v d) = PyDict.get k d.
Proof.
  intros Hne. induction d as [|[k0 v0] d IH]; simpl.
  - destruct (String.eqb_spec k' k); congruence.
  - destruct (String.eqb_spec k0 k') as [->|]; simpl.
    + destruct (String.eqb_spec k' k); congruence.
    + destruct (String.eqb k0 k); auto.
Qed.

(** An update leaves alone the keys it does not mention. *)
Lemma dict_get_update_other k d items :
  PyDict.mem k items = false ->
  PyDict.get k (PyDict.update d items) = PyDict.get k d.
Proof.
  unfold PyDict.update. revert d.
  induction items as [|[k' v'] items IH]; intros d H; simpl in *.
  - reflexivity.
  - apply orb_false_iff in H as [Hk H]. rewrite IH by assumption.
    apply dict_get_set_other. intros ->. now rewrite String.eqb_refl in Hk.
Qed.

Lemma dict_set_fresh k v d :
  PyDict.mem k d = false -> PyDict.set k v d = (d ++ [(k, v)])%list.
Proof.
  induction d as [|[k' v'] d IH]; simpl; [reflexivity|].
  intros H. apply orb_false_iff in H as [-> H]. now rewrite IH.
Qed.

(** Items with distinct fresh keys are appended in their order. *)
Lemma dict_update_fresh d items :
  NoDup (map fst (d ++ items)%list) ->
  PyDict.update d items = (d ++ items)%list.
Proof.
  unfold PyDict.update. revert d.
  induction items as [|[k v] items IH]; intros d H; simpl.
  - now rewrite app_nil_r.
  - assert (Hk : PyDict.mem k d = false).
    { apply dict_mem_false_keys. rewrite map_app in H.
      apply NoDup_remove_2 in H. intros Hin. apply H.
      apply in_or_app. now left. }
    rewrite dict_set_fresh by assumption.
    replace (d ++ (k, v) :: items)%list
      with ((d ++ [(k, v)]) ++ items)%list in *
      by now rewrite <- app_assoc.
    now apply IH.
Qed.

Lemma filter_keys_NoDup (f : string * V -> bool) items :
  NoDup (map fst items) -> NoDup (map fst (filter f items)).
Proof.
  induction items as [|kv items IH]; simpl; intros H; [constructor|].
  inversion H as [|? ? Hnot Hrest]; subst.
  destruct (f kv); simpl; auto.
  constructor; auto. intros Hin. apply Hnot.
  apply in_map_iff in Hin as (x & <- & Hx). apply filter_In in Hx as [Hx _].
  now apply in_map.
Qed.

Lemma dict_get_NoDup k v d :
  NoDup (map fst d) -> In (k, v) d -> PyDict.get k d = Some v.
Proof.
  induction d as [|[k' v'] d IH]; simpl; intros Hnd Hin; [destruct Hin|].
  inversion Hnd as [|? ? Hnot Hrest]; subst.
  destruct Hin as [[= -> ->]|Hin].
  - now rewrite String.eqb_refl.
  - destruct (String.eqb_spec k' k) as [->|]; auto.
    exfalso. apply Hnot. now apply (in_map fst) in Hin.
Qed.

(** A comprehension over items with distinct keys keeps exactly the items
    that pass the test. *)
Lemma dict_get_comprehension (keep : string -> V -> bool) k v items :
  NoDup (map fst items) -> In (k, v) items ->
  PyDict.get k (PyDict.comprehension keep items)
  = if keep k v then Some v else None.
Proof.
  intros Hnd Hin. unfold PyDict.comprehension.
  rewrite dict_update_fresh by (simpl; now apply filter_keys_NoDup).
  simpl. destruct (keep k v) eqn:E.
  - apply dict_get_NoDup; [now apply filter_keys_NoDup|].
    apply filter_In. now split.
  - apply dict_get_not_mem, dict_mem_false_keys. intros Hk.
    apply in_map_iff in Hk as ([k' v'] & Hfst & Hx). simpl in Hfst. subst k'.
    apply filter_In in Hx as [Hx Hkeep]. simpl in Hkeep.
    assert (v' = v).
    { pose proof (dict_get_NoDup _ _ _ Hnd Hx) as E1.
      pose proof (dict_get_NoDup _ _ _ Hnd Hin) as E2. congruence. }
    congruence.
Qed.

End DictFacts.

(** ** The directive block of the array script *)

Lemma vars_keys_NoDup (c : config.SlurmQueueConf) :
  NoDup (map fst (config.vars c)).
Proof.
  simpl. repeat (constructor; [simpl; intuition discriminate|]). constructor.
Qed.

(** No attribute of the configuration is called [array], [output] or
    [error]. *)
Lemma vars_keys_not_paths (c : config.SlurmQueueConf) (k : string) (v : pyval) :
  In (k, v) (config.vars c) ->
  k <> "array" /\ in_list k ["output"; "error"] = false.
Proof.
  simpl. intros H.
  repeat (destruct H as [[= <- _]|H]; [split; [discriminate|reflexivity]|]).
  destruct H.
Qed.

(** What [params] holds for an attribute that [additional] does not
    redefine: its value, unless the value is [None]. *)
Lemma array_params_attribute (c : config.SlurmQueueConf) (array_size : Z)
      (k : string) (v : pyval) :
  In (k, v) (config.vars c) ->
  in_list k non_slurm_array = false ->
  PyDict.mem k (config.additional c) = false ->
  PyDict.get k (array_params c array_size)
  = if is_not_None v then Some v else None.
Proof.
  intros Hin Hns Hadd. destruct (vars_keys_not_paths c k v Hin) as [Harr _].
  unfold array_params, update_additional.
  assert (E : PyDict.get k
                (PyDict.update
                   (PyDict.comprehension
                      (fun k v =>
                         is_not_None v && negb (in_list k non_slurm_array))
                      (config.vars c))
                   [("array",
                     PStr ("0-" ++ PyStr.str_of_int (array_size - 1)))])
              = if is_not_None v then Some v else None).
  { rewrite dict_get_update_other.
    - rewrite (dict_get_comprehension _ k v) by
        (auto using vars_keys_NoDup).
      rewrite Hns. now destruct (is_not_None v).
    - cbn [PyDict.mem]. rewrite orb_false_r.
      destruct (String.eqb_spec "array" k); congruence. }
  destruct (config.additional c) as [|kv extra] eqn:Ea; [exact E|].
  now rewrite dict_get_update_other.
Qed.

(** What [params] holds for [array] when [additional] does not redefine
    it: the computed range. *)
Lemma array_params_range (c : config.SlurmQueueConf) (array_size : Z) :
  PyDict.mem "array" (config.additional c) = false ->
  PyDict.get "array" (array_params c array_size)
  = Some (PStr ("0-" ++ PyStr.str_of_int (array_size - 1))).
Proof.
  intros Hadd. unfold array_params, update_additional.
  destruct (config.additional c) as [|kv extra] eqn:Ea.
  - unfold PyDict.update at 1. simpl. apply dict_get_set_same.
  - rewrite dict_get_update_other by assumption.
    unfold PyDict.update at 1. simpl. apply dict_get_set_same.
Qed.

(** Every entry of [params] that is not keyed [output] or [error] has its
    directive line in the script. *)
Lemma array_directive_of_entry (c : config.SlurmQueueConf)
      (array_name : pyval) (array_size : Z) (k : string) (v : pyval) :
  PyDict.get k (array_params c array_size) = Some v ->
  in_list k ["output"; "error"] = false ->
  In (as_sbatch_flag k v) (array_directive_lines c array_name array_size).
Proof.
  intros Hget Hk. unfold array_directive_lines.
  repeat (apply in_or_app; right).
  apply (in_map (fun kv => as_sbatch_flag (fst kv) (snd kv)) _ (k, v)).
  apply filter_In. split; [now apply dict_get_In|]. simpl fst. now rewrite Hk.
Qed.

Lemma string_of_uint_safe (d : Decimal.uint) :
  shlex.all_safe (NilEmpty.string_of_uint d) = true.
Proof. induction d; simpl; auto. Qed.

(** The decimal form of an integer needs no quoting. *)
Lemma str_of_int_safe (z : Z) : shlex.all_safe (PyStr.str_of_int z) = true.
Proof.
  unfold PyStr.str_of_int, NilZero.string_of_int, NilZero.string_of_uint.
  destruct (Z.to_int z) as [d|d]; destruct d; simpl;
    auto using string_of_uint_safe.
Qed.

Lemma quote_range (z : Z) :
  shlex.quote ("0-" ++ PyStr.str_of_int z) = "0-" ++ PyStr.str_of_int z.
Proof.
  unfold shlex.quote. simpl. now rewrite str_of_int_safe.
Qed.

(** C8, as stated, fails: an [additional] entry named [array] takes the
    place of the computed range. For three tasks the script then has no
    line [#SBATCH --array=0-2]. *)
Lemma array_range_overridden_by_additional :
  let c := conf_with (PStr "sweep") PNone PNone [("array", PStr "0-9%4")] in
  let lines :=
    array_script_lines c (PStr "sweep") 3
      "multirun/sweep_array_config.json" "/home/u/train.py" in
  in_list "#SBATCH --array=0-2" lines = false
  /\ ~ In "#SBATCH --array=0-2" lines
  /\ In "#SBATCH --array=0-9%4" lines.
Proof.
  cbv zeta. split; [reflexivity|]. split.
  - intros H.
    assert (E : in_list "#SBATCH --array=0-2"
                  (array_script_lines
                     (conf_with (PStr "sweep") PNone PNone
                                [("array", PStr "0-9%4")])
                     (PStr "sweep") 3
                     "multirun/sweep_array_config.json" "/home/u/train.py")
                = true).
    { unfold in_list. apply existsb_exists. eexists. split; [exact H|].
      apply String.eqb_refl. }
    vm_compute in E. discriminate.
  - vm_compute. do 9 right. left. reflexivity.
Qed.

(** C8, amended. For every batch size [N], the directive block of the
    array script sets the output and the error directives to [/dev/null],
    renders no entry keyed [output] or [error], and, when [additional] has
    no entry named [array], holds the array directive with the range
    [0-<N-1>]. *)
Theorem array_script_null_sink_and_range
        (c : config.SlurmQueueConf) (array_name : pyval) (N : nat) :
  PyDict.mem "array" (config.additional c) = false ->
  let lines := array_directive_lines c array_name (Z.of_nat N) in
  In "#SBATCH --output=/dev/null" lines
  /\ In "#SBATCH --error=/dev/null" lines
  /\ In ("#SBATCH --array=0-" ++ PyStr.str_of_int (Z.of_nat N - 1)) lines
  /\ exists entries,
      lines = (["#!/bin/bash"; " "; "# SLURM parameters";
                ("#SBATCH --job-name=" ++ py_str array_name)%string;
                "#SBATCH --output=/dev/null";
                "#SBATCH --error=/dev/null"]
               ++ map (fun kv => as_sbatch_flag (fst kv) (snd kv)) entries)%list
      /\ forall k v, In (k, v) entries -> k <> "output" /\ k <> "error".
Proof.
  intros Hadd lines. subst lines. repeat split.
  - unfold array_directive_lines. simpl. auto 6.
  - unfold array_directive_lines. simpl. auto 7.
  - pose proof (array_directive_of_entry c array_name (Z.of_nat N) "array" _
                  (array_params_range c (Z.of_nat N) Hadd) eq_refl) as H.
    unfold as_sbatch_flag in H. cbn [is_bool py_str] in H.
    rewrite quote_range in H. exact H.
  - eexists. split; [reflexivity|].
    intros k v Hin. apply filter_In in Hin as [_ Hk]. simpl fst in Hk.
    unfold in_list in Hk. cbn [existsb] in Hk.
    split; intros ->; discriminate.
Qed.

Lemma array_script_null_sink_and_range_witness :
  let lines := array_directive_lines array_conf (PStr "sweep") 3 in
  In "#SBATCH --output=/dev/null" lines
  /\ In "#SBATCH --error=/dev/null" lines
  /\ In "#SBATCH --array=0-2" lines
  /\ exists entries,
      lines = (["#!/bin/bash"; " "; "# SLURM parameters";
                "#SBATCH --job-name=sweep";
                "#SBATCH --output=/dev/null";
                "#SBATCH --error=/dev/null"]
               ++ map (fun kv => as_sbatch_flag (fst kv) (snd kv)) entries)%list
      /\ forall k v, In (k, v) entries -> k <> "output" /\ k <> "error".
Proof.
  apply (array_script_null_sink_and_range array_conf (PStr "sweep") 3).
  reflexivity.
Defined.

(** A real redirection target given through [additional] is dropped. *)
Example array_script_drops_output_entry :
  array_directive_lines
    (conf_with (PStr "sweep") PNone PNone [("output", PStr "run.log")])
    (PStr "sweep") 3
  = [ "#!/bin/bash"; " "; "# SLURM parameters";
      "#SBATCH --job-name=sweep";
      "#SBATCH --output=/dev/null";
      "#SBATCH --error=/dev/null";
      "#SBATCH --partition=gpu";
      "#SBATCH --nodes=1";
      "#SBATCH --mem=8G";
      "#SBATCH --array=0-2" ].
Proof. reflexivity. Qed.

(** ** Flags *)

Lemma is_not_None_false (v : pyval) : is_not_None v = false <-> v = PNone.
Proof. destruct v; simpl; split; congruence. Qed.



(** The same for every key, and for a boolean that comes in through
    [additional], with an underscore in its name. *)
Lemma as_sbatch_flag_bool (key : string) (b : bool) :
  as_sbatch_flag key (PBool b)
  = "#SBATCH --" ++ PyStr.replace_char "_"%char "-"%char key.
Proof. reflexivity. Qed.

Example array_script_false_flag_from_additional :
  array_directive_lines
    (conf_with (PStr "sweep") PNone PNone
               [("no_requeue", PBool false); ("exclusive", PBool true)])
    (PStr "sweep") 2
  = [ "#!/bin/bash"; " "; "# SLURM parameters";
      "#SBATCH --job-name=sweep";
      "#SBATCH --output=/dev/null";
      "#SBATCH --error=/dev/null";
      "#SBATCH --partition=gpu";
      "#SBATCH --nodes=1";
      "#SBATCH --mem=8G";
      "#SBATCH --array=0-1";
      "#SBATCH --no-requeue";
      "#SBATCH --exclusive" ].
Proof. reflexivity. Qed.

(** ** The GPU count *)

(** What holds for every GPU count: the constructor fills [gres] from
    [gpus] and keeps [gpus], and the array script renders both. *)
Lemma gpus_expanded_and_kept (fields : config.SlurmQueueConf) (w : World)
      (n : Z) (array_name : pyval) (array_size : Z) :
  config.gpus fields = PInt n ->
  config.gres fields = PNone ->
  config.job_name fields = PNone ->
  PyDict.mem "gpus" (config.additional fields) = false ->
  PyDict.mem "gres" (config.additional fields) = false ->
  exists c,
    SlurmQueueConf_new fields w = (Returned c, w)
    /\ config.gres c = PStr ("gpu:" ++ PyStr.str_of_int n)
    /\ config.gpus c = PInt n
    /\ In (as_sbatch_flag "gres" (PStr ("gpu:" ++ PyStr.str_of_int n)))
          (array_directive_lines c array_name array_size)
    /\ In ("#SBATCH --gpus=" ++ PyStr.str_of_int n)
          (array_directive_lines c array_name array_size).
Proof.
  intros Hg Hr Hj Hag Har.
  exists (config.set_gres (PStr ("gpu:" ++ PyStr.str_of_int n)) fields).
  destruct fields as [t p jn jan nd nt ntn cpt m ti gr gp ac q b mt mu ad su].
  cbn [config.gpus config.gres config.job_name config.additional] in *.
  subst gp gr jn. repeat split.
  - apply (array_directive_of_entry _ array_name array_size "gres").
    + rewrite (array_params_attribute _ array_size "gres"
                 (PStr ("gpu:" ++ PyStr.str_of_int n))); auto.
      simpl. auto 12.
    + reflexivity.
  - pose proof (array_directive_of_entry
                  (config.set_gres (PStr ("gpu:" ++ PyStr.str_of_int n))
                     (config.mkSlurmQueueConf t p PNone jan nd nt ntn cpt m ti
                        PNone (PInt n) ac q b mt mu ad su))
                  array_name array_size "gpus" (PInt n)) as H.
    unfold as_sbatch_flag in H. cbn [is_bool py_str] in H.
    assert (Eq : shlex.quote (PyStr.str_of_int n) = PyStr.str_of_int n).
    { unfold shlex.quote. rewrite str_of_int_safe.
      destruct (String.eqb_spec (PyStr.str_of_int n) "") as [E|]; [|reflexivity].
      exfalso. revert E. unfold PyStr.str_of_int, NilZero.string_of_int,
        NilZero.string_of_uint.
      destruct (Z.to_int n) as [d|d]; destruct d; discriminate. }
    rewrite Eq in H. apply H; [|reflexivity].
    rewrite (array_params_attribute _ array_size "gpus" (PInt n)); auto.
    simpl. auto 13.
Qed.

(** C6 does not hold of the code. From [gpus=2] the constructor derives
    [gres = gpu:2], but [gpus] stays set and neither script leaves it out:
    both scripts carry the line [#SBATCH --gpus=2] next to
    [#SBATCH --gres=gpu:2]. *)
Theorem gpus_key_is_emitted :
  let w := demo_world config.defaults (Exited 0 "Submitted batch job 555") in
  (let run :=
     SlurmLauncher_init (conf_with (PStr "sweep") PNone (PInt 2) []) ;;
     submit_job_array overrides3 job_names3 output_dirs3 "multirun" in
   config.gres (slurm_config (world_after run w)) = PStr "gpu:2"
   /\ exists text,
       In ("multirun/sweep_array.sh", Text text) (files (world_after run w))
       /\ In "#SBATCH --gres=gpu:2" (PyStr.splitlines text)
       /\ In "#SBATCH --gpus=2" (PyStr.splitlines text))
  /\
  (let run :=
     SlurmLauncher_init (conf_with PNone PNone (PInt 2) []) ;;
     submit_job ["a=1"] "train" "multirun/0" in
   config.gres (slurm_config (world_after run w)) = PStr "gpu:2"
   /\ exists text,
       In ("multirun/0/train.sh", Text text) (files (world_after run w))
       /\ In "#SBATCH --gres=gpu:2" (PyStr.splitlines text)
       /\ In "#SBATCH --gpus=2" (PyStr.splitlines text)).
Proof.
  cbv zeta. split.
  - split; [reflexivity|]. eexists. split; [left; reflexivity|].
    split; vm_compute; tauto.
  - split; [reflexivity|]. eexists. split; [left; reflexivity|].
    split; vm_compute; tauto.
Qed.

(** * Further properties of the code *)

(** ** The task store *)

Lemma enumerate_from_nth {A} (l : list A) (start i : nat) :
  nth_error (enumerate_from start l) i
  = option_map (fun x => (start + i, x)) (nth_error l i).
Proof.
  revert start i. induction l as [|x l IH]; intros start [|i]; simpl;
    try reflexivity.
  - now rewrite Nat.add_0_r.
  - rewrite IH. now rewrite Nat.add_succ_comm.
Qed.

Lemma zip3_nth {A B C} (a : list A) (b : list B) (c : list C) (i : nat)
      (x : A) (y : B) (z : C) :
  nth_error a i = Some x -> nth_error b i = Some y -> nth_error c i = Some z ->
  nth_error (zip3 a b c) i = Some (x, y, z).
Proof.
  revert b c i. induction a as [|x0 a IH]; intros [|y0 b] [|z0 c] [|i];
    simpl; try discriminate.
  - now intros [= ->] [= ->] [= ->].
  - apply IH.
Qed.

(** Looking a task up in the store by its index: position [i] holds the
    job name and the output directory given for task [i], its overrides
    without the [hydra.] ones and joined by spaces, and [task_id = i]; an
    index at or beyond the shortest of the three lists finds nothing. *)
Theorem build_config_data_lookup
        (all_overrides : list (list string))
        (job_names output_dirs : list string) (i : nat) :
  (forall overrides job_name output_dir,
      nth_error all_overrides i = Some overrides ->
      nth_error job_names i = Some job_name ->
      nth_error output_dirs i = Some output_dir ->
      nth_error (build_config_data all_overrides job_names output_dirs) i
      = Some {| tc_overrides := PyStr.join " " (filter_overrides overrides);
                tc_job_name := job_name;
                tc_output_dir := output_dir;
                tc_task_id := i |})
  /\ (Nat.min (List.length all_overrides)
              (Nat.min (List.length job_names) (List.length output_dirs)) <= i ->
      nth_error (build_config_data all_overrides job_names output_dirs) i
      = None).
Proof.
  split.
  - intros overrides job_name output_dir Ha Hb Hc. unfold build_config_data.
    rewrite nth_error_map, enumerate_from_nth.
    now rewrite (zip3_nth _ _ _ _ _ _ _ Ha Hb Hc).
  - intros H. apply nth_error_None.
    now rewrite build_config_data_length.
Qed.

(** The example of the specification: index 5 against a store of three. *)
Example store_lookup_out_of_range :
  nth_error (build_config_data overrides3 job_names3 output_dirs3) 5 = None.
Proof. reflexivity. Qed.

(** ** [submit_job_array] and the file system *)

(** When the task store cannot be opened, [submit_job_array] raises at
    once: the world is as before, so no script is written, no mode is set,
    and what the scheduler would answer plays no part. *)
Theorem submit_job_array_store_unwritable
        (w : World) (all_overrides : list (list string))
        (job_names output_dirs : list string) (sweep_dir : string) :
  can_open w (array_config_path w sweep_dir) = false ->
  submit_job_array all_overrides job_names output_dirs sweep_dir w
  = (Raised (FileNotFoundError (array_config_path w sweep_dir)), w).
Proof.
  intros Hc. unfold array_config_path in *. unfold submit_job_array.
  destruct w as [c a0 co fs ms sb]. cbn [slurm_config can_open] in *.
  run_step. rewrite Hc. reflexivity.
Qed.

Lemma submit_job_array_store_unwritable_witness :
  submit_job_array overrides3 job_names3 output_dirs3 "multirun"
                   (closed_world array_conf)
  = (Raised (FileNotFoundError "multirun/sweep_array_config.json"),
     closed_world array_conf).
Proof.
  apply (submit_job_array_store_unwritable
           (closed_world array_conf) overrides3 job_names3 output_dirs3
           "multirun").
  reflexivity.
Defined.

(** When the store can be written but the script cannot, the call raises
    with the store already on disk: the world differs from the one before
    by that one file, the script is neither written nor made executable. *)
Theorem submit_job_array_script_unwritable
        (w : World) (all_overrides : list (list string))
        (job_names output_dirs : list string) (sweep_dir : string) :
  can_open w (array_config_path w sweep_dir) = true ->
  can_open w (array_script_path w sweep_dir) = false ->
  submit_job_array all_overrides job_names output_dirs sweep_dir w
  = (Raised (FileNotFoundError (array_script_path w sweep_dir)),
     add_file (array_config_path w sweep_dir)
              (Json (build_config_data all_overrides job_names output_dirs))
              w).
Proof.
  intros Hc Hs. unfold array_config_path, array_script_path in *.
  unfold submit_job_array, generate_array_script, add_file.
  destruct w as [c a0 co fs ms sb].
  cbn [slurm_config can_open files modes sbatch argv0] in *.
  run_step. rewrite Hc. run_step. rewrite Hs. reflexivity.
Qed.

(** Whatever the scheduler does, also when it cannot be started, a batch
    whose two artifacts can be written leaves the store written first, the
    script written second and made executable (mode 0o755), and the shared
    configuration untouched. *)
Theorem submit_job_array_world
        (w : World) (all_overrides : list (list string))
        (job_names output_dirs : list string) (sweep_dir : string) :
  can_open w (array_config_path w sweep_dir) = true ->
  can_open w (array_script_path w sweep_dir) = true ->
  world_after
    (submit_job_array all_overrides job_names output_dirs sweep_dir) w
  = add_mode (array_script_path w sweep_dir) 493
      (add_file (array_script_path w sweep_dir)
         (Text (array_script_text w (List.length all_overrides) sweep_dir))
         (add_file (array_config_path w sweep_dir)
            (Json (build_config_data all_overrides job_names output_dirs))
            w)).
Proof.
  intros Hc Hs.
  unfold array_script_text, array_config_path, array_script_path in *.
  unfold world_after, submit_job_array, generate_array_script,
    add_mode, add_file.
  destruct w as [c a0 co fs ms sb].
  cbn [slurm_config can_open sbatch files modes argv0] in *.
  run_step. rewrite Hc. run_step. rewrite Hs. run_step.
  destruct (sb _) as [rc out| |]; cbn [snd is_CalledProcessError];
    try reflexivity.
  destruct (Z.eqb rc 0);
    cbn [andb negb snd is_CalledProcessError cp_stdout]; [|reflexivity].
  destruct (extract_job_id_returns out) as (r & -> & _). reflexivity.
Qed.

Lemma build_config_data_lookup_witness :
  nth_error (build_config_data [["a=1"; "hydra.verbose=true"]; ["a=2"]]
                               ["train"; "eval"] ["multirun/0"; "multirun/1"])
            0
  = Some {| tc_overrides := "a=1"; tc_job_name := "train";
            tc_output_dir := "multirun/0"; tc_task_id := 0 |}.
Proof.
  apply (proj1 (build_config_data_lookup
                  [["a=1"; "hydra.verbose=true"]; ["a=2"]]
                  ["train"; "eval"] ["multirun/0"; "multirun/1"] 0)
               ["a=1"; "hydra.verbose=true"] "train" "multirun/0");
    reflexivity.
Defined.

Lemma submit_job_array_script_unwritable_witness :
  submit_job_array overrides3 job_names3 output_dirs3 "multirun"
                   store_only_world
  = (Raised (FileNotFoundError "multirun/sweep_array.sh"),
     add_file "multirun/sweep_array_config.json"
              (Json (build_config_data overrides3 job_names3 output_dirs3))
              store_only_world).
Proof.
  apply (submit_job_array_script_unwritable
           store_only_world overrides3 job_names3 output_dirs3 "multirun");
    reflexivity.
Defined.

Lemma submit_job_array_world_witness :
  world_after
    (submit_job_array overrides3 job_names3 output_dirs3 "multirun")
    (demo_world array_conf NotFound)
  = add_mode "multirun/sweep_array.sh" 493
      (add_file "multirun/sweep_array.sh"
         (Text (array_script_text (demo_world array_conf NotFound) 3
                                  "multirun"))
         (add_file "multirun/sweep_array_config.json"
            (Json (build_config_data overrides3 job_names3 output_dirs3))
            (demo_world array_conf NotFound))).
Proof.
  apply (submit_job_array_world
           (demo_world array_conf NotFound)
           overrides3 job_names3 output_dirs3 "multirun"); reflexivity.
Defined.

(** ** Words and lines *)

Lemma append_assoc (a b c : string) : (a ++ b) ++ c = a ++ (b ++ c).
Proof. induction a as [|x a IH]; simpl; [reflexivity | now rewrite IH]. Qed.

Lemma append_nil_r (a : string) : a ++ "" = a.
Proof. induction a as [|x a IH]; simpl; [reflexivity | now rewrite IH]. Qed.

Lemma append_empty (a b : string) : a ++ b = "" -> a = "" /\ b = "".
Proof. destruct a; simpl; [auto | discriminate]. Qed.

Lemma linebreak_is_space (c : ascii) :
  PyStr.is_linebreak c = true -> PyStr.is_space c = true.
Proof.
  unfold PyStr.is_linebreak, PyStr.is_space.
  generalize (nat_of_ascii c) as n. intros n. cbv zeta.
  rewrite !orb_true_iff, !andb_true_iff, !Nat.leb_le, !Nat.eqb_eq. lia.
Qed.

(** A run of characters that are no whitespace joins the word being read. *)
Lemma split_from_word (t cur rest : string) :
  all_chars (fun c => negb (PyStr.is_space c)) t = true ->
  PyStr.split_from cur (t ++ rest) = PyStr.split_from (cur ++ t) rest.
Proof.
  revert cur. induction t as [|c t IH]; intros cur H; simpl in *.
  - now rewrite append_nil_r.
  - apply andb_true_iff in H as [Hc H]. apply negb_true_iff in Hc.
    rewrite Hc, IH by assumption. now rewrite append_assoc.
Qed.

Lemma split_from_end (cur : string) :
  cur <> "" -> PyStr.split_from cur "" = [cur].
Proof. intros H. simpl. now destruct (String.eqb_spec cur ""). Qed.

Lemma split_from_space (cur rest : string) (c : ascii) :
  PyStr.is_space c = true -> cur <> "" ->
  PyStr.split_from cur (String c rest) = cur :: PyStr.split_from "" rest.
Proof.
  intros Hc H. simpl. rewrite Hc. now destruct (String.eqb_spec cur "").
Qed.

Lemma is_token_spec (t : string) :
  is_token t = true <->
  t <> "" /\ all_chars (fun c => negb (PyStr.is_space c)) t = true.
Proof.
  unfold is_token. rewrite andb_true_iff, negb_true_iff.
  destruct (String.eqb_spec t ""); intuition congruence.
Qed.

(** Words joined by single spaces are the words [split] finds. *)
Lemma split_from_join (words : list string) (w : string) :
  forallb is_token (w :: words) = true ->
  PyStr.split_from "" (PyStr.join " " (w :: words)) = w :: words.
Proof.
  revert w. induction words as [|w' words IH]; intros w H.
  - cbn [forallb] in H. rewrite andb_true_r in H.
    apply is_token_spec in H as [Hne Hw]. cbn [PyStr.join].
    rewrite <- (append_nil_r w) at 1. rewrite split_from_word by assumption.
    now apply split_from_end.
  - cbn [forallb] in H. apply andb_true_iff in H as [Hw H].
    apply is_token_spec in Hw as [Hne Hw].
    change (PyStr.join " " (w :: w' :: words))
      with (w ++ String " " (PyStr.join " " (w' :: words))).
    rewrite split_from_word by assumption. simpl append at 1.
    rewrite split_from_space by (reflexivity || assumption).
    now rewrite IH.
Qed.

Lemma list_ascii_of_string_app (a b : string) :
  list_ascii_of_string (a ++ b)
  = (list_ascii_of_string a ++ list_ascii_of_string b)%list.
Proof. induction a as [|x a IH]; simpl; [reflexivity | now rewrite IH]. Qed.

Lemma all_chars_Forall (p : ascii -> bool) (s : string) :
  all_chars p s = true <-> forall c, In c (list_ascii_of_string s) -> p c = true.
Proof.
  induction s as [|x s IH]; simpl.
  - split; [intros _ c [] | reflexivity].
  - rewrite andb_true_iff, IH. split.
    + intros [Hx H] c [<-|Hc]; auto.
    + intros H. split; auto.
Qed.

(** [strip] leaves alone a string that starts and ends with characters
    that are no whitespace. *)
Lemma strip_fixed (c : ascii) (body t : string) :
  PyStr.is_space c = false -> is_token t = true ->
  PyStr.strip (String c body ++ t) = String c body ++ t.
Proof.
  intros Hc Ht. apply is_token_spec in Ht as [Hne Ht].
  unfold PyStr.strip, PyStr.rstrip_chars.
  cbn [append list_ascii_of_string PyStr.lstrip_chars]. rewrite Hc.
  rewrite list_ascii_of_string_app.
  destruct (exists_last (l := list_ascii_of_string t)) as (l' & z & E).
  { intros E. apply Hne. rewrite <- (string_of_list_ascii_of_string t), E.
    reflexivity. }
  assert (Hz : PyStr.is_space z = false).
  { apply negb_true_iff. apply (proj1 (all_chars_Forall _ t) Ht).
    rewrite E. apply in_or_app. right. now left. }
  rewrite E, app_comm_cons, app_assoc, rev_unit.
  cbn [PyStr.lstrip_chars]. rewrite Hz.
  rewrite <- rev_unit, rev_involutive, <- app_assoc, <- app_comm_cons, <- E.
  rewrite <- list_ascii_of_string_app.
  change (c :: list_ascii_of_string (body ++ t))
    with (list_ascii_of_string (String c (body ++ t))).
  apply string_of_list_ascii_of_string.
Qed.

(** The last word of an acknowledgment line is the id it ends with. *)
Lemma last_token_of_ack_line (J : string) :
  is_token J = true ->
  last_token ("Submitted batch job " ++ J) = Returned J.
Proof.
  intros HJ. unfold last_token.
  change ("Submitted batch job " ++ J)
    with (String "S" "ubmitted batch job " ++ J).
  rewrite strip_fixed by (reflexivity || assumption).
  change (String "S" "ubmitted batch job " ++ J)
    with (PyStr.join " " ["Submitted"; "batch"; "job"; J]).
  unfold PyStr.split. rewrite split_from_join.
  - reflexivity.
  - cbn [forallb]. rewrite HJ. reflexivity.
Qed.

Lemma all_chars_app (p : ascii -> bool) (a b : string) :
  all_chars p (a ++ b) = all_chars p a && all_chars p b.
Proof.
  induction a as [|x a IH]; simpl; [reflexivity|].
  now rewrite IH, andb_assoc.
Qed.

Lemma all_chars_impl (p q : ascii -> bool) (s : string) :
  (forall c, p c = true -> q c = true) ->
  all_chars p s = true -> all_chars q s = true.
Proof.
  intros Hpq. induction s as [|x s IH]; simpl; [reflexivity|].
  rewrite !andb_true_iff. intros [Hx Hs]. auto.
Qed.

(** A newline closes the line being read, whatever came before it. *)
Lemma splitlines_from_cut (out rest cur : string) (after_cr : bool) :
  (after_cr = true -> cur = "") ->
  PyStr.splitlines_from cur after_cr (out ++ PyStr.nl ++ rest)
  = (PyStr.splitlines_from cur after_cr (out ++ PyStr.nl)
     ++ PyStr.splitlines_from "" false rest)%list.
Proof.
  revert cur after_cr. induction out as [|c out IH]; intros cur after_cr Hinv.
  - destruct after_cr.
    + rewrite Hinv by reflexivity. reflexivity.
    + reflexivity.
  - cbn [append PyStr.splitlines_from].
    destruct (after_cr && PyStr.is_lf c).
    + apply IH. discriminate.
    + destruct (PyStr.is_linebreak c).
      * cbn [app]. f_equal. apply IH. reflexivity.
      * apply IH. discriminate.
Qed.

(** A text without line boundaries is one line. *)
Lemma splitlines_from_single (s cur : string) :
  all_chars (fun c => negb (PyStr.is_linebreak c)) s = true ->
  cur ++ s <> "" ->
  PyStr.splitlines_from cur false s = [cur ++ s].
Proof.
  revert cur. induction s as [|c s IH]; intros cur H Hne.
  - simpl. rewrite append_nil_r in *.
    now destruct (String.eqb_spec cur "").
  - cbn [all_chars] in H. apply andb_true_iff in H as [Hc H].
    apply negb_true_iff in Hc.
    cbn [PyStr.splitlines_from andb]. rewrite Hc.
    rewrite IH; [now rewrite append_assoc | assumption |].
    rewrite append_assoc. exact Hne.
Qed.

Lemma scan_job_id_app (l1 l2 : list string) (job_id : option string) :
  scan_job_id job_id (l1 ++ l2)
  = match scan_job_id job_id l1 with
    | Returned found => scan_job_id found l2
    | Raised e => Raised e
    end.
Proof.
  revert job_id. induction l1 as [|line l1 IH]; intros job_id; simpl.
  - reflexivity.
  - destruct (PyStr.contains "Submitted batch job" line).
    + destruct (last_token line); [apply IH | reflexivity].
    + apply IH.
Qed.

Lemma ack_line_is_one_line (J : string) :
  is_token J = true ->
  PyStr.splitlines_from "" false ("Submitted batch job " ++ J)
  = ["Submitted batch job " ++ J].
Proof.
  intros HJ. apply is_token_spec in HJ as [_ HJ].
  apply (splitlines_from_single _ "").
  - rewrite all_chars_app. apply andb_true_iff. split; [reflexivity|].
    revert HJ. apply all_chars_impl. intros c Hc.
    apply negb_true_iff in Hc. apply negb_true_iff.
    destruct (PyStr.is_linebreak c) eqn:E; [|reflexivity].
    apply linebreak_is_space in E. congruence.
  - discriminate.
Qed.

(** ** Reading the job id *)

(** The acknowledgment the scheduler prints is read back: for every id [J]
    that is one word, the text [Submitted batch job J] gives [J], alone or
    as the last line after any other output. *)
Theorem extract_job_id_of_ack (out J : string) :
  is_token J = true ->
  extract_job_id ("Submitted batch job " ++ J) = Returned (Some J)
  /\ extract_job_id (out ++ PyStr.nl ++ "Submitted batch job " ++ J)
     = Returned (Some J).
Proof.
  intros HJ.
  assert (Hscan : forall found,
             scan_job_id found ["Submitted batch job " ++ J]
             = Returned (Some J)).
  { intros found. cbn [scan_job_id].
    replace (PyStr.contains "Submitted batch job" ("Submitted batch job " ++ J))
      with true by reflexivity.
    now rewrite last_token_of_ack_line. }
  unfold extract_job_id, PyStr.splitlines. split.
  - rewrite ack_line_is_one_line by assumption. apply Hscan.
  - rewrite splitlines_from_cut by discriminate.
    rewrite scan_job_id_app.
    destruct (scan_job_id_returns
                (PyStr.splitlines_from "" false (out ++ PyStr.nl)) None)
      as (found & -> & _); [now left|].
    rewrite ack_line_is_one_line by assumption. apply Hscan.
Qed.

Lemma extract_job_id_of_ack_witness :
  extract_job_id "Submitted batch job 555" = Returned (Some "555")
  /\ extract_job_id ("sbatch: lua: ok" ++ PyStr.nl ++ "Submitted batch job 555")
     = Returned (Some "555").
Proof.
  apply (extract_job_id_of_ack "sbatch: lua: ok" "555"). reflexivity.
Defined.

Lemma split_from_tokens_no_space (s cur t : string) :
  all_chars (fun c => negb (PyStr.is_space c)) cur = true ->
  In t (PyStr.split_from cur s) ->
  all_chars (fun c => negb (PyStr.is_space c)) t = true.
Proof.
  revert cur. induction s as [|c s IH]; intros cur Hcur H; simpl in H.
  - destruct (String.eqb cur ""); [destruct H|].
    destruct H as [<-|[]]; assumption.
  - destruct (PyStr.is_space c) eqn:Ec.
    + destruct (String.eqb cur "").
      * apply (IH ""); auto.
      * destruct H as [<-|H]; [assumption|]. apply (IH ""); auto.
    + apply (IH (cur ++ String c "")); [|assumption].
      rewrite all_chars_app, Hcur. simpl. now rewrite Ec.
Qed.

Lemma last_token_is_token (line t : string) :
  last_token line = Returned t -> is_token t = true.
Proof.
  unfold last_token.
  destruct (rev (PyStr.split (PyStr.strip line))) as [|t' l] eqn:E;
    [discriminate|].
  intros [= ->].
  assert (Hin : In t (PyStr.split_from "" (PyStr.strip line))).
  { apply in_rev. fold (PyStr.split (PyStr.strip line)). rewrite E.
    now left. }
  apply is_token_spec. split.
  - now apply (split_from_tokens (PyStr.strip line) "").
  - now apply (split_from_tokens_no_space (PyStr.strip line) "").
Qed.

(** An id that is found is one word: it is not empty and holds no
    whitespace, so the derived ids [J_i] hold none either. *)
Theorem extract_job_id_is_token (stdout J : string) :
  extract_job_id stdout = Returned (Some J) -> is_token J = true.
Proof.
  unfold extract_job_id.
  assert (H : forall lines found,
             (forall J', found = Some J' -> is_token J' = true) ->
             scan_job_id found lines = Returned (Some J) ->
             is_token J = true).
  { induction lines as [|line lines IH]; intros found Hf; simpl.
    - intros [= ->]. now apply Hf.
    - destruct (PyStr.contains "Submitted batch job" line).
      + destruct (last_token line) as [t|e] eqn:E; [|discriminate].
        apply IH. intros J' [= <-]. now apply (last_token_is_token line).
      + now apply IH. }
  apply H. discriminate.
Qed.

Lemma extract_job_id_is_token_witness : is_token "42" = true.
Proof.
  apply (extract_job_id_is_token
           ("Submitted batch job 41" ++ PyStr.nl ++ "  Submitted batch job 42  ")
           "42").
  reflexivity.
Defined.

Lemma startswith_app (p s b : string) :
  PyStr.startswith p s = true -> PyStr.startswith p (s ++ b) = true.
Proof.
  unfold PyStr.startswith. revert s.
  induction p as [|x p IH]; intros s H; [now destruct (s ++ b)|].
  destruct s as [|y s]; simpl in *; [discriminate|].
  destruct (Ascii.ascii_dec x y); [now apply IH | discriminate].
Qed.

Lemma contains_app_r (p s b : string) :
  PyStr.contains p s = true -> PyStr.contains p (s ++ b) = true.
Proof.
  induction s as [|y s IH]; intros H.
  - cbn [PyStr.contains] in H. rewrite orb_false_r in H.
    destruct b; cbn [append PyStr.contains]; [now rewrite H|].
    pose proof (startswith_app p "" (String a b) H) as H'.
    cbn [append] in H'. now rewrite H'.
  - cbn [append PyStr.contains] in *.
    apply orb_true_iff in H as [H|H].
    + pose proof (startswith_app p (String y s) b H) as H'.
      cbn [append] in H'. now rewrite H'.
    + rewrite IH by assumption. apply orb_true_r.
Qed.

Lemma contains_app_l (p a s : string) :
  PyStr.contains p s = true -> PyStr.contains p (a ++ s) = true.
Proof.
  intros H. induction a as [|x a IH]; [assumption|].
  cbn [append PyStr.contains]. rewrite IH. apply orb_true_r.
Qed.

(** Every line of [splitlines] is a piece of the text. *)
Lemma splitlines_from_piece (s cur line : string) (after_cr : bool) :
  (after_cr = true -> cur = "") ->
  In line (PyStr.splitlines_from cur after_cr s) ->
  exists a b, cur ++ s = a ++ line ++ b.
Proof.
  revert cur after_cr. induction s as [|c s IH]; intros cur after_cr Hinv H.
  - simpl in H. destruct (String.eqb cur ""); [destruct H|].
    destruct H as [<-|[]]. exists "", "". now rewrite append_nil_r.
  - cbn [PyStr.splitlines_from] in H.
    destruct (after_cr && PyStr.is_lf c) eqn:E.
    + apply andb_true_iff in E as [-> _]. rewrite Hinv in * by reflexivity.
      apply IH in H as (a & b & Hs); [|discriminate]. simpl in Hs.
      exists (String c a), b. simpl. now rewrite Hs.
    + destruct (PyStr.is_linebreak c).
      * destruct H as [<-|H].
        -- exists "", (String c s). reflexivity.
        -- apply IH in H as (a & b & Hs); [|reflexivity]. simpl in Hs.
           exists (cur ++ String c a), b.
           rewrite append_assoc. simpl. now rewrite Hs.
      * apply IH in H as (a & b & Hs); [|discriminate].
        exists a, b. rewrite <- Hs, append_assoc. reflexivity.
Qed.

(** Output that nowhere holds the acknowledgment phrase gives no id, and
    reading it does not fail. *)
Theorem extract_job_id_without_ack (stdout : string) :
  PyStr.contains "Submitted batch job" stdout = false ->
  extract_job_id stdout = Returned None.
Proof.
  intros Hno. unfold extract_job_id, PyStr.splitlines.
  assert (Hlines : forall line,
             In line (PyStr.splitlines_from "" false stdout) ->
             PyStr.contains "Submitted batch job" line = false).
  { intros line Hin.
    destruct (PyStr.contains "Submitted batch job" line) eqn:E;
      [|reflexivity].
    apply splitlines_from_piece in Hin as (a & b & Hs); [|discriminate].
    simpl in Hs. rewrite Hs in Hno.
    rewrite contains_app_l in Hno; [discriminate|].
    now apply contains_app_r. }
  induction (PyStr.splitlines_from "" false stdout) as [|line lines IH].
  - reflexivity.
  - simpl. rewrite Hlines by now left.
    apply IH. intros l Hl. apply Hlines. now right.
Qed.

Lemma extract_job_id_without_ack_witness :
  extract_job_id ("sbatch: queued" ++ PyStr.nl ++ "job 12 accepted")
  = Returned None.
Proof.
  apply (extract_job_id_without_ack
           ("sbatch: queued" ++ PyStr.nl ++ "job 12 accepted")).
  reflexivity.
Defined.

(** ** [submit_job] *)

Lemma build_command_run (overrides : list string) (w : World) :
  build_command overrides w
  = (Returned (command_line (argv0 w) overrides), w).
Proof.
  unfold build_command, command_line. run_step.
  destruct (filter_overrides overrides); [reflexivity|].
  now rewrite !append_assoc.
Qed.

(** Whatever the scheduler does, also when it exits with an error or
    cannot be started, a call of [submit_job] whose script file can be
    opened changes the world by that one file: the shared configuration is
    back to what it was, and no mode is set on the script. *)
Theorem submit_job_world
        (w : World) (overrides : list string) (job_name output_dir : string) :
  can_open w (os_path_join output_dir (job_name ++ ".sh")) = true ->
  world_after (submit_job overrides job_name output_dir) w
  = add_file (os_path_join output_dir (job_name ++ ".sh"))
             (Text (slurm_script_text w overrides job_name output_dir)) w.
Proof.
  intros Hopen.
  unfold world_after, submit_job, bind at 1. rewrite build_command_run.
  unfold generate_slurm_script, slurm_script_text, rendering_config, add_file.
  destruct w as [c a0 co fs ms sb].
  cbn [slurm_config can_open files modes sbatch argv0] in *. run_step.
  destruct (negb (is_not_None (config.job_name c))); run_step;
    rewrite Hopen; run_step;
    rewrite ?set_job_name_twice, set_job_name_same;
    (destruct (sb _) as [rc out| |]; cbn [snd]; try reflexivity;
     destruct (Z.eqb rc 0) eqn:E; cbn [andb negb snd cp_returncode cp_stdout];
     [rewrite E; destruct (extract_job_id out); reflexivity | reflexivity]).
Qed.

Lemma submit_job_world_witness :
  world_after (submit_job ["a=1"] "train" "multirun/0")
              (demo_world config.defaults (Exited 1 ""))
  = add_file "multirun/0/train.sh"
             (Text (slurm_script_text (demo_world config.defaults (Exited 1 ""))
                                      ["a=1"] "train" "multirun/0"))
             (demo_world config.defaults (Exited 1 "")).
Proof.
  apply (submit_job_world (demo_world config.defaults (Exited 1 ""))
                          ["a=1"] "train" "multirun/0").
  reflexivity.
Defined.

(** When the scheduler accepts the job (exit status 0), [submit_job]
    returns a COMPLETED record; it carries the id read from the
    acknowledgment, and [None] in place of the dictionary when no id is
    read. *)
Theorem submit_job_accepted_record
        (w : World) (overrides : list string) (job_name output_dir : string)
        (out : string) :
  can_open w (os_path_join output_dir (job_name ++ ".sh")) = true ->
  sbatch w (os_path_join output_dir (job_name ++ ".sh")) = Exited 0 out ->
  exists found,
    extract_job_id out = Returned found
    /\ result_of (submit_job overrides job_name output_dir) w
       = Returned {| status := COMPLETED;
                     return_value := match found with
                                     | Some J => RJobId (Some J)
                                     | None => RNone
                                     end |}.
Proof.
  intros Hopen Hrun.
  destruct (extract_job_id_returns out) as (found & Hf & Htruthy).
  exists found. split; [assumption|].
  unfold result_of, submit_job, bind at 1. rewrite build_command_run.
  unfold generate_slurm_script.
  destruct w as [c a0 co fs ms sb].
  cbn [slurm_config can_open files modes sbatch argv0] in *. run_step.
  destruct (negb (is_not_None (config.job_name c))); run_step;
    rewrite Hopen; run_step; rewrite Hrun;
    cbn [Z.eqb andb negb fst cp_returncode cp_stdout]; rewrite Hf;
    cbn [fst]; (destruct Htruthy as [->|Ht];
                [reflexivity | rewrite Ht; destruct found; [reflexivity|discriminate]]).
Qed.

Lemma submit_job_accepted_record_witness :
  exists found,
    extract_job_id "Submitted batch job 7" = Returned found
    /\ result_of (submit_job ["a=1"] "train" "multirun/0")
                 (demo_world config.defaults (Exited 0 "Submitted batch job 7"))
       = Returned {| status := COMPLETED;
                     return_value := match found with
                                     | Some J => RJobId (Some J)
                                     | None => RNone
                                     end |}.
Proof.
  apply (submit_job_accepted_record
           (demo_world config.defaults (Exited 0 "Submitted batch job 7"))
           ["a=1"] "train" "multirun/0" "Submitted batch job 7");
    reflexivity.
Defined.

(** ** The constructor on fields it accepts *)

Lemma set_gres_keeps_names (v : pyval) (c : config.SlurmQueueConf) :
  config.job_name (config.set_gres v c) = config.job_name c
  /\ config.job_array_name (config.set_gres v c) = config.job_array_name c
  /\ config.gpus (config.set_gres v c) = config.gpus c
  /\ config.gres (config.set_gres v c) = v.
Proof. destruct c; repeat split. Qed.

Lemma is_not_None_pair (a b : pyval) :
  a = PNone \/ b = PNone -> is_not_None a && is_not_None b = false.
Proof. intros [-> | ->]; [reflexivity | apply andb_false_r]. Qed.

(** Fields that set at most one of [job_name] and [job_array_name] and at
    most one of [gpus] and [gres] are accepted: the constructor returns,
    touches nothing in the world, and the object is the fields as given,
    with [gres] set to [gpu:<gpus>] when [gpus] is given. *)
Theorem SlurmQueueConf_new_accepts
        (fields : config.SlurmQueueConf) (w : World) :
  config.job_name fields = PNone \/ config.job_array_name fields = PNone ->
  config.gpus fields = PNone \/ config.gres fields = PNone ->
  SlurmQueueConf_new fields w
  = (Returned
       (if is_not_None (config.gpus fields)
        then config.set_gres
               (PStr ("gpu:" ++ py_str (config.gpus fields))) fields
        else fields),
     w).
Proof.
  intros Hnames Hgpu. unfold SlurmQueueConf_new, __post_init__. run_step.
  rewrite (is_not_None_pair _ _ Hgpu).
  destruct (is_not_None (config.gpus fields)); cbv beta iota.
  - destruct (set_gres_keeps_names
                (PStr ("gpu:" ++ py_str (config.gpus fields))) fields)
      as (-> & -> & _).
    now rewrite (is_not_None_pair _ _ Hnames).
  - now rewrite (is_not_None_pair _ _ Hnames).
Qed.

Lemma SlurmQueueConf_new_accepts_witness :
  SlurmQueueConf_new (conf_with (PStr "sweep") PNone (PInt 2) [])
                     (demo_world config.defaults NotFound)
  = (Returned (config.set_gres (PStr "gpu:2")
                 (conf_with (PStr "sweep") PNone (PInt 2) [])),
     demo_world config.defaults NotFound).
Proof.
  apply (SlurmQueueConf_new_accepts
           (conf_with (PStr "sweep") PNone (PInt 2) [])
           (demo_world config.defaults NotFound)).
  - left. reflexivity.
  - right. reflexivity.
Defined.

(** Every object the constructor returns keeps the two rules: it does not
    hold both names, and when it holds a GPU count its [gres] is the
    expansion [gpu:<gpus>] of that count. *)
Theorem SlurmQueueConf_new_invariant
        (fields c : config.SlurmQueueConf) (w w' : World) :
  SlurmQueueConf_new fields w = (Returned c, w') ->
  w' = w
  /\ (config.job_name c = PNone \/ config.job_array_name c = PNone)
  /\ (config.gpus c <> PNone ->
      config.gres c = PStr ("gpu:" ++ py_str (config.gpus c))).
Proof.
  unfold SlurmQueueConf_new, __post_init__. run_step.
  destruct (is_not_None (config.gpus fields) && is_not_None (config.gres fields));
    [discriminate|].
  destruct (is_not_None (config.gpus fields)) eqn:Eg; cbv beta iota.
  - destruct (set_gres_keeps_names
                (PStr ("gpu:" ++ py_str (config.gpus fields))) fields)
      as (Hj & Ha & Hg & Hr).
    rewrite Hj, Ha.
    destruct (is_not_None (config.job_name fields)
              && is_not_None (config.job_array_name fields)) eqn:En;
      [discriminate|].
    intros [= <- <-]. clear Hj Ha Hg Hr.
    destruct fields as [t p jn jan nd nt ntn cpt m ti gr gp ac q b mt mu ad su].
    cbn [config.job_name config.job_array_name config.gpus config.gres
         config.set_gres] in *.
    repeat split.
    apply andb_false_iff in En as [En|En]; apply is_not_None_false in En; auto.
  - destruct (is_not_None (config.job_name fields)
              && is_not_None (config.job_array_name fields)) eqn:En;
      [discriminate|].
    intros [= <- <-]. repeat split.
    + apply andb_false_iff in En as [En|En]; apply is_not_None_false in En;
        auto.
    + apply is_not_None_false in Eg. congruence.
Qed.

Lemma SlurmQueueConf_new_invariant_witness :
  demo_world config.defaults NotFound = demo_world config.defaults NotFound
  /\ (config.job_name
        (config.set_gres (PStr "gpu:2")
           (conf_with (PStr "sweep") PNone (PInt 2) [])) = PNone
      \/ config.job_array_name
           (config.set_gres (PStr "gpu:2")
              (conf_with (PStr "sweep") PNone (PInt 2) [])) = PNone)
  /\ (config.gpus
        (config.set_gres (PStr "gpu:2")
           (conf_with (PStr "sweep") PNone (PInt 2) [])) <> PNone ->
      config.gres
        (config.set_gres (PStr "gpu:2")
           (conf_with (PStr "sweep") PNone (PInt 2) []))
      = PStr ("gpu:" ++ py_str
                (config.gpus
                   (config.set_gres (PStr "gpu:2")
                      (conf_with (PStr "sweep") PNone (PInt 2) []))))).
Proof.
  apply (SlurmQueueConf_new_invariant
           (conf_with (PStr "sweep") PNone (PInt 2) [])
           (config.set_gres (PStr "gpu:2")
              (conf_with (PStr "sweep") PNone (PInt 2) []))
           (demo_world config.defaults NotFound)
           (demo_world config.defaults NotFound)).
  reflexivity.
Defined.

(** The constructor does not accept its own result: an object built from a
    GPU count holds both [gpus] and [gres], so building a configuration
    again from its fields raises. *)
Theorem SlurmQueueConf_new_not_idempotent
        (fields c : config.SlurmQueueConf) (w : World) :
  config.gpus fields <> PNone ->
  SlurmQueueConf_new fields w = (Returned c, w) ->
  SlurmQueueConf_new c w
  = (Raised (ValueError "Cannot specify both 'gpus' and 'gres'"), w).
Proof.
  intros Hg. unfold SlurmQueueConf_new, __post_init__. run_step.
  destruct fields as [t p jn jan nd nt ntn cpt m ti gr gp ac q b mt mu ad su].
  cbn [config.job_name config.job_array_name config.gpus config.gres
       config.set_gres] in *.
  assert (Egp : is_not_None gp = true).
  { destruct gp; [exfalso; now apply Hg | reflexivity..]. }
  rewrite Egp. cbn [andb].
  destruct (is_not_None gr); [discriminate|].
  cbn [config.job_name config.job_array_name config.gpus config.gres
       config.set_gres].
  destruct (is_not_None jn && is_not_None jan); [discriminate|].
  intros [= <-].
  cbn [config.job_name config.job_array_name config.gpus config.gres
       config.set_gres is_not_None andb].
  now rewrite Egp.
Qed.

Lemma SlurmQueueConf_new_not_idempotent_witness :
  SlurmQueueConf_new
    (config.set_gres (PStr "gpu:2")
       (conf_with (PStr "sweep") PNone (PInt 2) []))
    (demo_world config.defaults NotFound)
  = (Raised (ValueError "Cannot specify both 'gpus' and 'gres'"),
     demo_world config.defaults NotFound).
Proof.
  apply (SlurmQueueConf_new_not_idempotent
           (conf_with (PStr "sweep") PNone (PInt 2) [])
           (config.set_gres (PStr "gpu:2")
              (conf_with (PStr "sweep") PNone (PInt 2) []))
           (demo_world config.defaults NotFound)).
  - discriminate.
  - reflexivity.
Defined.

(** ** The order of the directives *)

Lemma kept_attributes_keys (non_slurm : list string)
      (c : config.SlurmQueueConf) (k : string) :
  In k (map fst (kept_attributes non_slurm c)) -> In k (map fst (config.vars c)).
Proof.
  intros H. apply in_map_iff in H as (kv & <- & Hin).
  apply filter_In in Hin as [Hin _]. now apply in_map.
Qed.

Lemma vars_keys_not_paths_key (c : config.SlurmQueueConf) (k : string) :
  In k (map fst (config.vars c)) ->
  k <> "array" /\ k <> "output" /\ k <> "error".
Proof.
  intros H. apply in_map_iff in H as ([k' v] & <- & Hin). simpl fst.
  destruct (vars_keys_not_paths c k' v Hin) as [Ha Hoe].
  split; [assumption|]. split; intros ->; discriminate.
Qed.

(** The keys of the kept attributes, then [paths], then [additional] are
    all different when [additional] brings only new keys. *)
Lemma params_keys_NoDup (non_slurm : list string) (c : config.SlurmQueueConf)
      (paths : list (string * pyval)) :
  NoDup (map fst paths) ->
  (forall k, In k (map fst paths) -> k = "array" \/ k = "output" \/ k = "error") ->
  fresh_additional c (map fst paths) ->
  NoDup (map fst ((kept_attributes non_slurm c ++ paths)
                  ++ config.additional c)%list).
Proof.
  intros Hp Hkeys [Hadd Hfresh]. rewrite !map_app.
  apply NoDup_app; [apply NoDup_app | assumption |].
  - apply filter_keys_NoDup, vars_keys_NoDup.
  - assumption.
  - intros k Hk Hkp. apply kept_attributes_keys in Hk.
    apply vars_keys_not_paths_key in Hk as (? & ? & ?).
    destruct (Hkeys k Hkp) as [?|[?|?]]; contradiction.
  - intros k Hk Hka. destruct (Hfresh k Hka) as [Hv Hr].
    apply in_app_or in Hk as [Hk|Hk];
      [apply Hv; now apply kept_attributes_keys in Hk | now apply Hr].
Qed.

Lemma params_in_order (non_slurm : list string) (c : config.SlurmQueueConf)
      (paths : list (string * pyval)) :
  NoDup (map fst paths) ->
  (forall k, In k (map fst paths) -> k = "array" \/ k = "output" \/ k = "error") ->
  fresh_additional c (map fst paths) ->
  update_additional c
    (PyDict.update
       (PyDict.comprehension
          (fun k v => is_not_None v && negb (in_list k non_slurm))
          (config.vars c))
       paths)
  = ((kept_attributes non_slurm c ++ paths) ++ config.additional c)%list.
Proof.
  intros Hp Hkeys Hfresh.
  pose proof (params_keys_NoDup non_slurm c paths Hp Hkeys Hfresh) as Hnd.
  assert (Hnd' : NoDup (map fst (kept_attributes non_slurm c ++ paths)%list)).
  { rewrite map_app in Hnd. now apply NoDup_app_remove_r in Hnd. }
  assert (Hnd'' : NoDup (map fst (kept_attributes non_slurm c))).
  { rewrite map_app in Hnd'. now apply NoDup_app_remove_r in Hnd'. }
  unfold PyDict.comprehension.
  fold (kept_attributes non_slurm c).
  rewrite (dict_update_fresh [] (kept_attributes non_slurm c)) by exact Hnd''.
  cbn [app]. rewrite dict_update_fresh by exact Hnd'.
  unfold update_additional.
  destruct (config.additional c) as [|kv extra] eqn:E.
  - now rewrite app_nil_r.
  - now apply dict_update_fresh.
Qed.

(** The directives of the array script come in a fixed order: the
    attributes that are set, as the dataclass declares them, then the array
    range, then the entries of [additional] as given, when these bring only
    new keys. *)
Theorem array_params_in_order (c : config.SlurmQueueConf) (array_size : Z) :
  fresh_additional c ["array"] ->
  array_params c array_size
  = (kept_attributes non_slurm_array c
     ++ [("array", PStr ("0-" ++ PyStr.str_of_int (array_size - 1)))]
     ++ config.additional c)%list.
Proof.
  intros Hfresh. unfold array_params. rewrite params_in_order.
  - now rewrite <- app_assoc.
  - repeat constructor; simpl; tauto.
  - simpl. intros k [<-|[]]. now left.
  - exact Hfresh.
Qed.

Lemma array_params_in_order_witness :
  array_params
    (conf_with (PStr "sweep") (PInt 4) PNone [("exclusive", PBool true)]) 3
  = [ ("partition", PStr "gpu"); ("nodes", PInt 1); ("ntasks", PInt 4);
      ("mem", PStr "8G"); ("array", PStr "0-2"); ("exclusive", PBool true) ].
Proof.
  apply (array_params_in_order
           (conf_with (PStr "sweep") (PInt 4) PNone [("exclusive", PBool true)])
           3).
  split.
  - repeat constructor; simpl; tauto.
  - simpl. intros k [<-|[]]. split; intuition discriminate.
Defined.

(** The same for the single-job script: the attributes that are set, the
    job name among them, then the output and the error file, then the new
    entries of [additional]. *)
Theorem slurm_params_in_order (c : config.SlurmQueueConf) (output_dir : string) :
  fresh_additional c ["output"; "error"] ->
  slurm_params c output_dir
  = (kept_attributes non_slurm_single c
     ++ [ ("output",
           PStr (output_dir ++ "/" ++ py_str (config.job_name c) ++ "_%j.out"));
          ("error",
           PStr (output_dir ++ "/" ++ py_str (config.job_name c) ++ "_%j.err")) ]
     ++ config.additional c)%list.
Proof.
  intros Hfresh. unfold slurm_params. rewrite params_in_order.
  - now rewrite <- app_assoc.
  - repeat constructor; simpl; intuition discriminate.
  - simpl. intros k [<-|[<-|[]]]; auto.
  - exact Hfresh.
Qed.

Lemma slurm_params_in_order_witness :
  slurm_params
    (config.set_job_name (PStr "train")
       (conf_with PNone PNone PNone [("exclusive", PBool true)]))
    "multirun/0"
  = [ ("partition", PStr "gpu"); ("job_name", PStr "train");
      ("nodes", PInt 1); ("mem", PStr "8G");
      ("output", PStr "multirun/0/train_%j.out");
      ("error", PStr "multirun/0/train_%j.err");
      ("exclusive", PBool true) ].
Proof.
  apply (slurm_params_in_order
           (config.set_job_name (PStr "train")
              (conf_with PNone PNone PNone [("exclusive", PBool true)]))
           "multirun/0").
  split.
  - repeat constructor; simpl; tauto.
  - simpl. intros k [<-|[]]. split; intuition discriminate.
Defined.

(** ** What the scripts leave out and what they always carry *)

Lemma dict_get_comprehension_rejected {V} (keep : string -> V -> bool)
      (k : string) (items : list (string * V)) :
  (forall v, keep k v = false) ->
  PyDict.get k (PyDict.comprehension keep items) = None.
Proof.
  intros Hk. unfold PyDict.comprehension.
  rewrite dict_get_update_other; [reflexivity|].
  apply dict_mem_false_keys. intros Hin.
  apply in_map_iff in Hin as ([k' v] & Hfst & Hx). simpl in Hfst. subst k'.
  apply filter_In in Hx as [_ Hx]. simpl in Hx. now rewrite Hk in Hx.
Qed.

Lemma in_list_In (k : string) (l : list string) :
  in_list k l = true <-> In k l.
Proof.
  unfold in_list. rewrite existsb_exists. split.
  - intros (x & Hx & E). apply String.eqb_eq in E. now subst.
  - intros H. exists k. split; [assumption | apply String.eqb_refl].
Qed.

(** No script takes a directive from an attribute that its [non_slurm] list
    names: [_target_] and [job_array_name] in both scripts, and in the
    array script [job_name] as well, whatever the attribute holds. Only
    [additional] can bring such a key in. *)
Theorem non_slurm_attributes_left_out
        (c : config.SlurmQueueConf) (array_size : Z) (output_dir : string)
        (k : string) :
  PyDict.mem k (config.additional c) = false ->
  (in_list k non_slurm_array = true ->
   PyDict.get k (array_params c array_size) = None)
  /\ (in_list k non_slurm_single = true ->
      PyDict.get k (slurm_params c output_dir) = None).
Proof.
  intros Hadd. split; intros Hk.
  - unfold array_params, update_additional.
    assert (E : PyDict.get k
                  (PyDict.update
                     (PyDict.comprehension
                        (fun k v =>
                           is_not_None v && negb (in_list k non_slurm_array))
                        (config.vars c))
                     [("array",
                       PStr ("0-" ++ PyStr.str_of_int (array_size - 1)))])
                = None).
    { rewrite dict_get_update_other.
      - apply dict_get_comprehension_rejected. intros v. rewrite Hk.
        apply andb_false_r.
      - apply in_list_In in Hk. cbn [PyDict.mem]. rewrite orb_false_r.
        apply String.eqb_neq. intros <-. simpl in Hk. intuition discriminate. }
    destruct (config.additional c); [exact E|].
    now rewrite dict_get_update_other.
  - unfold slurm_params, update_additional.
    match goal with
    | |- PyDict.get k (match _ with [] => ?p | _ => _ end) = None =>
        assert (E : PyDict.get k p = None)
    end.
    { rewrite dict_get_update_other.
      - apply dict_get_comprehension_rejected. intros v. rewrite Hk.
        apply andb_false_r.
      - apply in_list_In in Hk. cbn [PyDict.mem]. rewrite orb_false_r.
        apply orb_false_iff.
        split; apply String.eqb_neq; intros <-; simpl in Hk;
          intuition discriminate. }
    destruct (config.additional c); [exact E|].
    now rewrite dict_get_update_other.
Qed.

Lemma non_slurm_attributes_left_out_witness :
  PyDict.get "job_name"
    (array_params (config.set_job_name (PStr "train") array_conf) 3) = None.
Proof.
  apply (proj1 (non_slurm_attributes_left_out
                  (config.set_job_name (PStr "train") array_conf) 3 ""
                  "job_name" eq_refl)).
  reflexivity.
Defined.

Lemma slurm_params_attribute (c : config.SlurmQueueConf) (output_dir : string)
      (k : string) (v : pyval) :
  In (k, v) (config.vars c) ->
  in_list k non_slurm_single = false ->
  PyDict.mem k (config.additional c) = false ->
  PyDict.get k (slurm_params c output_dir)
  = if is_not_None v then Some v else None.
Proof.
  intros Hin Hns Hadd.
  destruct (vars_keys_not_paths_key c k) as (_ & Ho & He).
  { now apply (in_map fst) in Hin. }
  unfold slurm_params, update_additional.
  match goal with
  | |- PyDict.get k (match _ with [] => ?p | _ => _ end) = _ =>
      assert (E : PyDict.get k p = if is_not_None v then Some v else None)
  end.
  { rewrite dict_get_update_other.
    - rewrite (dict_get_comprehension _ k v) by (auto using vars_keys_NoDup).
      rewrite Hns. now destruct (is_not_None v).
    - cbn [PyDict.mem]. rewrite orb_false_r. apply orb_false_iff.
      split; apply String.eqb_neq; congruence. }
  destruct (config.additional c); [exact E|].
  now rewrite dict_get_update_other.
Qed.

Lemma slurm_params_paths (c : config.SlurmQueueConf) (output_dir : string) :
  PyDict.mem "output" (config.additional c) = false ->
  PyDict.mem "error" (config.additional c) = false ->
  PyDict.get "output" (slurm_params c output_dir)
  = Some (PStr (output_dir ++ "/" ++ py_str (config.job_name c) ++ "_%j.out"))
  /\ PyDict.get "error" (slurm_params c output_dir)
     = Some (PStr (output_dir ++ "/" ++ py_str (config.job_name c) ++ "_%j.err")).
Proof.
  intros Ho He. unfold slurm_params, update_additional.
  match goal with
  | |- PyDict.get _ (match _ with [] => ?p | _ => _ end) = ?a /\ _ = ?b =>
      assert (E : PyDict.get "output" p = a /\ PyDict.get "error" p = b)
  end.
  { split; unfold PyDict.update at 1; cbn [fold_left fst snd].
    - rewrite dict_get_set_other by discriminate. apply dict_get_set_same.
    - apply dict_get_set_same. }
  destruct (config.additional c); [exact E|].
  rewrite (dict_get_update_other "output" _ _ Ho).
  rewrite (dict_get_update_other "error" _ _ He). exact E.
Qed.

Lemma slurm_directive_of_entry (c : config.SlurmQueueConf)
      (output_dir command k : string) (v : pyval) :
  PyDict.get k (slurm_params c output_dir) = Some v ->
  In (as_sbatch_flag k v) (slurm_script_lines c output_dir command).
Proof.
  intros Hget. unfold slurm_script_lines.
  apply in_or_app. right. apply in_or_app. left.
  apply (in_map (fun kv => as_sbatch_flag (fst kv) (snd kv)) _ (k, v)).
  now apply dict_get_In.
Qed.

Lemma generate_slurm_script_files
      (w : World) (job_name output_dir command : string) :
  can_open w (os_path_join output_dir (job_name ++ ".sh")) = true ->
  files (world_after (generate_slurm_script job_name output_dir command) w)
  = (os_path_join output_dir (job_name ++ ".sh"),
     Text (PyStr.join PyStr.nl
             (slurm_script_lines (rendering_config (slurm_config w) job_name)
                                 output_dir command)))
    :: files w.
Proof.
  intros Hopen.
  unfold world_after, generate_slurm_script, rendering_config.
  destruct w as [c a0 co fs ms sb].
  cbn [slurm_config can_open files] in *. run_step.
  destruct (negb (is_not_None (config.job_name c))); run_step;
    rewrite Hopen; reflexivity.
Qed.

(** The single-job script always names the job and redirects its output:
    unless [additional] redefines these keys, it carries the directive
    [job_name] and the output and error files [<output_dir>/<name>_%j.out]
    and [.err], where [<name>] is the job name of the configuration when
    there is one and the job name of the call otherwise; the file of the
    script itself is named after the call's job name in both cases. *)
Theorem slurm_script_names_and_redirects
        (w : World) (job_name output_dir command : string) :
  let c := slurm_config w in
  let name := if is_not_None (config.job_name c)
              then config.job_name c else PStr job_name in
  PyDict.mem "job_name" (config.additional c) = false ->
  PyDict.mem "output" (config.additional c) = false ->
  PyDict.mem "error" (config.additional c) = false ->
  can_open w (os_path_join output_dir (job_name ++ ".sh")) = true ->
  exists lines,
    files (world_after (generate_slurm_script job_name output_dir command) w)
    = (os_path_join output_dir (job_name ++ ".sh"),
       Text (PyStr.join PyStr.nl lines)) :: files w
    /\ In (as_sbatch_flag "job_name" name) lines
    /\ In (as_sbatch_flag "output"
             (PStr (output_dir ++ "/" ++ py_str name ++ "_%j.out"))) lines
    /\ In (as_sbatch_flag "error"
             (PStr (output_dir ++ "/" ++ py_str name ++ "_%j.err"))) lines.
Proof.
  intros c name Hj Ho He Hopen. subst c name.
  pose proof (generate_slurm_script_files
                w job_name output_dir command Hopen) as Hfiles.
  eexists. split; [exact Hfiles|].
  unfold rendering_config.
  set (c := slurm_config w) in *.
  destruct (is_not_None (config.job_name c)) eqn:En; cbn [negb].
  - destruct (slurm_params_paths c output_dir Ho He) as [Hout Herr].
    repeat split.
    + apply slurm_directive_of_entry with (k := "job_name").
      rewrite (slurm_params_attribute c output_dir "job_name"
                 (config.job_name c)); [now rewrite En | | reflexivity | exact Hj].
      simpl. auto.
    + now apply slurm_directive_of_entry with (k := "output").
    + now apply slurm_directive_of_entry with (k := "error").
  - assert (Hadd : config.additional (config.set_job_name (PStr job_name) c)
                   = config.additional c) by (destruct c; reflexivity).
    assert (Hname : config.job_name (config.set_job_name (PStr job_name) c)
                    = PStr job_name) by (destruct c; reflexivity).
    destruct (slurm_params_paths (config.set_job_name (PStr job_name) c)
                output_dir) as [Hout Herr]; try (rewrite Hadd; assumption).
    rewrite Hname in Hout, Herr.
    repeat split.
    + apply slurm_directive_of_entry with (k := "job_name").
      rewrite (slurm_params_attribute _ output_dir "job_name" (PStr job_name));
        [reflexivity | | reflexivity | now rewrite Hadd].
      destruct c; simpl; auto.
    + now apply slurm_directive_of_entry with (k := "output").
    + now apply slurm_directive_of_entry with (k := "error").
Qed.

Lemma slurm_script_names_and_redirects_witness :
  exists lines,
    files (world_after
             (generate_slurm_script "train" "multirun/0" "python train.py")
             (demo_world config.defaults NotFound))
    = [("multirun/0/train.sh", Text (PyStr.join PyStr.nl lines))]
    /\ In "#SBATCH --job-name=train" lines
    /\ In "#SBATCH --output=multirun/0/train_%j.out" lines
    /\ In "#SBATCH --error=multirun/0/train_%j.err" lines.
Proof.
  apply (slurm_script_names_and_redirects
           (demo_world config.defaults NotFound)
           "train" "multirun/0" "python train.py"); reflexivity.
Defined.

(** ** Quoting *)

Lemma append_inj_l (p a b : string) : p ++ a = p ++ b -> a = b.
Proof.
  induction p as [|x p IH]; simpl; [auto|]. intros [= H]. auto.
Qed.

(** The escaped form of a text, closed by the quote, determines the text. *)
Lemma replace_with_quote_inj (a b : string) :
  PyStr.replace_with "'"%char
    ("'" ++ PyStr.dq ++ "'" ++ PyStr.dq ++ "'") a ++ "'"
  = PyStr.replace_with "'"%char
      ("'" ++ PyStr.dq ++ "'" ++ PyStr.dq ++ "'") b ++ "'" ->
  a = b.
Proof.
  revert b. induction a as [|x a IH]; intros [|y b];
    cbn [PyStr.replace_with append PyStr.dq].
  - reflexivity.
  - destruct (Ascii.eqb_spec y "'"%char) as [->|Hy]; cbn [append].
    + discriminate.
    + intros [= E]. congruence.
  - destruct (Ascii.eqb_spec x "'"%char) as [->|Hx]; cbn [append].
    + discriminate.
    + intros [= E]. congruence.
  - destruct (Ascii.eqb_spec x "'"%char) as [->|Hx];
      destruct (Ascii.eqb_spec y "'"%char) as [->|Hy]; cbn [append].
    + intros [= E]. f_equal. now apply IH.
    + intros [= E]. congruence.
    + intros [= E]. congruence.
    + intros [= E1 E2]. f_equal; [assumption | now apply IH].
Qed.

(** [shlex.quote] loses nothing: two texts with the same quoted form are
    the same text, so for one key two different string values never give
    the same directive line. *)
Theorem quoted_values_distinct (key a b : string) :
  as_sbatch_flag key (PStr a) = as_sbatch_flag key (PStr b) -> a = b.
Proof.
  unfold as_sbatch_flag. cbn [is_bool py_str].
  intros H. do 3 apply append_inj_l in H. revert H. unfold shlex.quote.
  destruct (String.eqb_spec a "") as [->|Ha];
    destruct (String.eqb_spec b "") as [->|Hb].
  - reflexivity.
  - destruct (shlex.all_safe b) eqn:Sb.
    + intros <-. cbn in Sb. discriminate.
    + cbn [append]. intros [= H]. destruct b as [|y b]; [contradiction|].
      revert H. cbn [PyStr.replace_with].
      destruct (Ascii.eqb_spec y "'"%char); cbn [append PyStr.dq];
        [discriminate | intros [= E]; congruence].
  - destruct (shlex.all_safe a) eqn:Sa.
    + intros ->. cbn in Sa. discriminate.
    + cbn [append]. intros [= H]. destruct a as [|x a]; [contradiction|].
      revert H. cbn [PyStr.replace_with].
      destruct (Ascii.eqb_spec x "'"%char); cbn [append PyStr.dq];
        [discriminate | intros [= E]; congruence].
  - destruct (shlex.all_safe a) eqn:Sa; destruct (shlex.all_safe b) eqn:Sb.
    + auto.
    + intros ->. cbn in Sa. discriminate.
    + intros <-. cbn in Sb. discriminate.
    + cbn [append]. intros [= H]. now apply replace_with_quote_inj.
Qed.

Lemma quoted_values_distinct_witness : "a b" = "a b".
Proof.
  apply (quoted_values_distinct "comment" "a b" "a b"). reflexivity.
Defined.

(** ** The command line *)

Lemma command_line_join (argv0 : string) (overrides : list string) :
  command_line argv0 overrides
  = PyStr.join " "
      ("python" :: argv0 :: "hydra.launcher=basic" :: filter_overrides overrides).
Proof.
  unfold command_line.
  destruct (filter_overrides overrides) as [|o kept].
  - cbn [PyStr.join append]. reflexivity.
  - change (PyStr.join " " ("python" :: argv0 :: "hydra.launcher=basic"
                                     :: o :: kept))
      with ("python " ++ argv0 ++ " " ++ "hydra.launcher=basic" ++ " "
                      ++ PyStr.join " " (o :: kept)).
    reflexivity.
Qed.

Lemma filter_overrides_tokens (overrides : list string) :
  forallb is_token overrides = true ->
  forallb is_token (filter_overrides overrides) = true.
Proof.
  unfold filter_overrides. rewrite !forallb_forall.
  intros H x Hx. apply filter_In in Hx as [Hx _]. auto.
Qed.

(** The command is the program, then the forced launcher, then the
    overrides of the task in their order without those that start with
    [hydra.]: when the program path and the overrides are single words,
    these are exactly the words of the command, and the world is left as it
    was. *)
Theorem build_command_words
        (w : World) (overrides : list string) :
  is_token (argv0 w) = true ->
  forallb is_token overrides = true ->
  exists command,
    build_command overrides w = (Returned command, w)
    /\ PyStr.split command
       = "python" :: argv0 w :: "hydra.launcher=basic"
           :: filter_overrides overrides
    /\ forall o, In o (filter_overrides overrides) ->
                 In o overrides /\ PyStr.startswith "hydra." o = false.
Proof.
  intros Hargv Hov. exists (command_line (argv0 w) overrides).
  split; [apply build_command_run|]. split.
  - rewrite command_line_join. unfold PyStr.split. apply split_from_join.
    cbn [forallb]. rewrite Hargv. cbn [andb is_token].
    replace (is_token "python") with true by reflexivity.
    replace (is_token "hydra.launcher=basic") with true by reflexivity.
    cbn [andb]. now apply filter_overrides_tokens.
  - intros o Ho. unfold filter_overrides in Ho.
    apply filter_In in Ho as [Hin Hk]. split; [assumption|].
    now apply negb_true_iff in Hk.
Qed.

Lemma build_command_words_witness :
  exists command,
    build_command ["a=1"; "hydra.verbose=true"; "b=x"]
                  (demo_world config.defaults NotFound)
    = (Returned command, demo_world config.defaults NotFound)
    /\ PyStr.split command
       = ["python"; "/home/u/train.py"; "hydra.launcher=basic"; "a=1"; "b=x"]
    /\ forall o, In o ["a=1"; "b=x"] ->
                 In o ["a=1"; "hydra.verbose=true"; "b=x"]
                 /\ PyStr.startswith "hydra." o = false.
Proof.
  apply (build_command_words (demo_world config.defaults NotFound)
                             ["a=1"; "hydra.verbose=true"; "b=x"]);
    reflexivity.
Defined.

(** ** The launcher *)

Ltac run_host :=
  cbv [hbind hret lift Path_mkdir world can_mkdir made_dirs].

(** One run of [submit_job] in full, once its script can be written. *)
Lemma submit_job_run
      (w : World) (overrides : list string) (job_name output_dir : string) :
  can_open w (os_path_join output_dir (job_name ++ ".sh")) = true ->
  submit_job overrides job_name output_dir w
  = (match sbatch w (os_path_join output_dir (job_name ++ ".sh")) with
     | Exited rc out =>
         if Z.eqb rc 0 then Returned (accepted_record out)
         else Raised (CalledProcessError rc)
     | NotFound => Raised (FileNotFoundError "sbatch")
     | NotPermitted => Raised (PermissionError "sbatch")
     end,
     add_file (os_path_join output_dir (job_name ++ ".sh"))
              (Text (slurm_script_text w overrides job_name output_dir)) w).
Proof.
  intros Hopen.
  unfold submit_job, bind at 1. rewrite build_command_run.
  unfold generate_slurm_script, slurm_script_text, rendering_config, add_file,
    accepted_record.
  destruct w as [c a0 co fs ms sb].
  cbn [slurm_config can_open files modes sbatch argv0] in *. run_step.
  destruct (negb (is_not_None (config.job_name c))); run_step;
    rewrite Hopen; run_step;
    rewrite ?set_job_name_twice, set_job_name_same;
    (destruct (sb _) as [rc out| |]; try reflexivity;
     destruct (Z.eqb rc 0) eqn:E; cbn [andb negb cp_returncode cp_stdout];
     [rewrite E | reflexivity];
     destruct (extract_job_id_returns out) as (found & -> & [->|Ht]);
     [reflexivity | rewrite Ht; destruct found; [reflexivity | discriminate]]).
Qed.

(** The tasks the scheduler accepts, one after the other: each adds its
    directory, its script and its record, and the loop goes on with the
    rest. *)
Lemma submit_individual_jobs_prefix
      (self : HydraEnv) (sweep_dir : string)
      (before rest : list (list string)) :
  forall (h : Host) (returns : list JobReturn),
    (forall overrides, In overrides before ->
                       exists out, task_accepted self h sweep_dir overrides out) ->
    submit_individual_jobs self sweep_dir (before ++ rest) returns h
    = submit_individual_jobs self sweep_dir rest
        (returns ++ map (task_record self (world h) sweep_dir) before)
        (host_after h
           (rev (map (task_script self (world h) sweep_dir) before))
           (rev (map (task_output_dir self sweep_dir) before))).
Proof.
  induction before as [|overrides before IH]; intros h returns Hacc.
  - cbn [app map rev]. rewrite app_nil_r.
    destruct h as [[c a0 co fs ms sb] cm md]. reflexivity.
  - destruct (Hacc overrides (or_introl eq_refl)) as (out & Hmk & Hopen & Hrun).
    cbn [app submit_individual_jobs]. unfold hbind at 1.
    unfold Path_mkdir at 1. rewrite Hmk.
    unfold hbind at 1, lift at 1. cbn [world].
    unfold task_script_path in Hopen, Hrun.
    rewrite (submit_job_run _ _ _ _ Hopen), Hrun. cbn [Z.eqb].
    rewrite IH.
    + destruct h as [[c a0 co fs ms sb] cm md].
      unfold host_after, task_record, task_script, task_script_path,
        slurm_script_text, add_file.
      cbn [world can_mkdir made_dirs slurm_config argv0 can_open files modes
           sbatch map rev] in *.
      rewrite Hrun. rewrite <- !app_assoc. reflexivity.
    + intros ov Hov. destruct (Hacc ov (or_intror Hov)) as (o & H1 & H2 & H3).
      exists o. destruct h as [[c a0 co fs ms sb] cm md].
      unfold task_accepted in *.
      cbn [world can_mkdir made_dirs slurm_config argv0 can_open files modes
           sbatch add_file] in *. auto.
Qed.

(** When the scheduler accepts every task, [_launch_individual_jobs]
    returns one COMPLETED record per task, in task order, each with the id
    of its own acknowledgment; every task has its directory made and its
    script written, in task order, and the shared configuration is as
    before. *)
Theorem launch_individual_jobs_all_accepted
        (self : HydraEnv) (h : Host) (job_overrides : list (list string))
        (initial_job_idx : Z) (sweep_dir : string) :
  (forall overrides,
      In overrides job_overrides ->
      exists out, task_accepted self h sweep_dir overrides out) ->
  exists returns h',
    _launch_individual_jobs self job_overrides initial_job_idx sweep_dir h
    = (Returned returns, h')
    /\ List.length returns = List.length job_overrides
    /\ (forall i overrides out,
           nth_error job_overrides i = Some overrides ->
           task_accepted self h sweep_dir overrides out ->
           nth_error returns i = Some (accepted_record out))
    /\ slurm_config (world h') = slurm_config (world h)
    /\ files (world h')
       = (rev (map (task_script self (world h) sweep_dir) job_overrides)
          ++ files (world h))%list
    /\ made_dirs h'
       = (rev (map (task_output_dir self sweep_dir) job_overrides)
          ++ made_dirs h)%list.
Proof.
  intros Hacc. unfold _launch_individual_jobs.
  pose proof (submit_individual_jobs_prefix
                self sweep_dir job_overrides [] h [] Hacc) as E.
  rewrite app_nil_r in E. rewrite E.
  cbn [submit_individual_jobs app]. unfold hret.
  eexists. eexists. split; [reflexivity|]. repeat split.
  - now rewrite length_map.
  - intros i overrides out Hi (_ & _ & Hrun).
    rewrite nth_error_map, Hi. cbn [option_map]. unfold task_record.
    now rewrite Hrun.
Qed.

Lemma launch_individual_jobs_all_accepted_witness :
  exists returns h',
    _launch_individual_jobs demo_env [["a=1"]; ["a=2"]] 0 "multirun"
      (demo_host (demo_world config.defaults
                    (Exited 0 "Submitted batch job 7")))
    = (Returned returns, h')
    /\ List.length returns = 2
    /\ (forall i overrides out,
           nth_error [["a=1"]; ["a=2"]] i = Some overrides ->
           task_accepted demo_env
             (demo_host (demo_world config.defaults
                           (Exited 0 "Submitted batch job 7")))
             "multirun" overrides out ->
           nth_error returns i = Some (accepted_record out))
    /\ slurm_config (world h') = config.defaults
    /\ files (world h')
       = (rev (map (task_script demo_env
                      (demo_world config.defaults
                         (Exited 0 "Submitted batch job 7")) "multirun")
                   [["a=1"]; ["a=2"]]) ++ [])%list
    /\ made_dirs h' = ["multirun/2"; "multirun/1"].
Proof.
  apply (launch_individual_jobs_all_accepted
           demo_env
           (demo_host (demo_world config.defaults
                         (Exited 0 "Submitted batch job 7")))
           [["a=1"]; ["a=2"]] 0 "multirun").
  intros overrides _. exists "Submitted batch job 7". repeat split.
Defined.

(** [_launch_individual_jobs] stops at the first task the scheduler
    refuses: the exit status leaves the launcher as [CalledProcessError],
    the records of the tasks accepted before it are not returned although
    those tasks are submitted, the refused task has its script written, and
    no later task gets a directory or a script. *)
Theorem launch_individual_jobs_stops_at_refusal
        (self : HydraEnv) (h : Host)
        (before after : list (list string)) (refused : list string)
        (initial_job_idx : Z) (sweep_dir : string) (rc : Z) (out : string) :
  (forall overrides,
      In overrides before ->
      exists out', task_accepted self h sweep_dir overrides out') ->
  can_mkdir h (task_output_dir self sweep_dir refused) = true ->
  can_open (world h) (task_script_path self sweep_dir refused) = true ->
  sbatch (world h) (task_script_path self sweep_dir refused) = Exited rc out ->
  rc <> 0%Z ->
  _launch_individual_jobs self (before ++ refused :: after) initial_job_idx
                          sweep_dir h
  = (Raised (CalledProcessError rc),
     host_after h
       (rev (map (task_script self (world h) sweep_dir) (before ++ [refused])))
       (rev (map (task_output_dir self sweep_dir) (before ++ [refused])))).
Proof.
  intros Hacc Hmk Hopen Hrun Hrc. apply Z.eqb_neq in Hrc.
  unfold _launch_individual_jobs.
  rewrite submit_individual_jobs_prefix by assumption.
  cbn [submit_individual_jobs]. unfold hbind at 1, Path_mkdir at 1.
  destruct h as [[c a0 co fs ms sb] cm md].
  unfold host_after at 1 2.
  cbn [world can_mkdir made_dirs slurm_config argv0 can_open files modes
       sbatch] in *.
  rewrite Hmk. unfold hbind at 1, lift at 1. cbn [world].
  unfold task_script_path in Hopen, Hrun.
  rewrite submit_job_run by exact Hopen.
  cbn [sbatch]. rewrite Hrun, Hrc.
  unfold host_after, add_file, task_script, task_script_path, slurm_script_text.
  cbn [world can_mkdir made_dirs slurm_config argv0 can_open files modes
       sbatch].
  rewrite !map_app, !rev_app_distr. cbn [map rev app].
  reflexivity.
Qed.

Lemma launch_individual_jobs_stops_at_refusal_witness :
  _launch_individual_jobs demo_env ([["a=1"]] ++ ["a=2"] :: [["a=3"]]) 0
                          "multirun" (demo_host refusing_world)
  = (Raised (CalledProcessError 1),
     host_after (demo_host refusing_world)
       (rev (map (task_script demo_env (world (demo_host refusing_world))
                              "multirun")
                 ([["a=1"]] ++ [["a=2"]])))
       (rev (map (task_output_dir demo_env "multirun")
                 ([["a=1"]] ++ [["a=2"]])))).
Proof.
  apply (launch_individual_jobs_stops_at_refusal
           demo_env (demo_host refusing_world)
           [["a=1"]] [["a=3"]] ["a=2"] 0 "multirun" 1 "").
  - intros overrides [<-|[]]. exists "Submitted batch job 7".
    split; [reflexivity|]. split; reflexivity.
  - reflexivity.
  - reflexivity.
  - reflexivity.
  - discriminate.
Defined.

(** The loop of [_launch_job_array] over tasks whose directories can be
    made. *)
Lemma collect_array_jobs_prefix
      (self : HydraEnv) (sweep_dir : string)
      (before rest : list (list string)) :
  forall (h : Host) (job_names output_dirs : list string),
    (forall overrides,
        In overrides before ->
        can_mkdir h (task_output_dir self sweep_dir overrides) = true) ->
    collect_array_jobs self sweep_dir (before ++ rest) job_names output_dirs h
    = collect_array_jobs self sweep_dir rest
        (job_names ++ map (task_job_name self) before)
        (output_dirs ++ map (task_output_dir self sweep_dir) before)
        (host_after h []
           (rev (map (task_output_dir self sweep_dir) before))).
Proof.
  induction before as [|overrides before IH];
    intros h job_names output_dirs Hmk.
  - cbn [app map rev]. rewrite !app_nil_r.
    destruct h as [[c a0 co fs ms sb] cm md]. reflexivity.
  - cbn [app collect_array_jobs]. unfold hbind at 1, Path_mkdir at 1.
    rewrite (Hmk overrides (or_introl eq_refl)).
    rewrite IH.
    + destruct h as [[c a0 co fs ms sb] cm md]. unfold host_after.
      cbn [world can_mkdir made_dirs slurm_config argv0 can_open files modes
           sbatch map rev app].
      rewrite <- !app_assoc. reflexivity.
    + intros ov Hov. destruct h as [[c a0 co fs ms sb] cm md].
      cbn [can_mkdir]. apply (Hmk ov). now right.
Qed.

(** [_launch_job_array] makes the directory of every task and then hands
    [submit_job_array] the overrides with one job name and one output
    directory per task, in task order: the three lists always have the same
    length. *)
Theorem launch_job_array_composes
        (self : HydraEnv) (h : Host) (job_overrides : list (list string))
        (initial_job_idx : Z) (sweep_dir : string) :
  (forall overrides,
      In overrides job_overrides ->
      can_mkdir h (task_output_dir self sweep_dir overrides) = true) ->
  let job_names := map (task_job_name self) job_overrides in
  let output_dirs := map (task_output_dir self sweep_dir) job_overrides in
  let run := submit_job_array job_overrides job_names output_dirs sweep_dir in
  List.length job_names = List.length job_overrides
  /\ List.length output_dirs = List.length job_overrides
  /\ _launch_job_array self job_overrides initial_job_idx sweep_dir h
     = (result_of run (world h),
        {| world := world_after run (world h);
           can_mkdir := can_mkdir h;
           made_dirs := (rev output_dirs ++ made_dirs h)%list |}).
Proof.
  intros Hmk job_names output_dirs run. subst job_names output_dirs run.
  split; [apply length_map|]. split; [apply length_map|].
  unfold _launch_job_array, hbind at 1.
  pose proof (collect_array_jobs_prefix
                self sweep_dir job_overrides [] h [] [] Hmk) as E.
  rewrite app_nil_r in E. rewrite E. clear E.
  cbn [collect_array_jobs app]. unfold hret at 1.
  unfold hbind, lift, hret, result_of, world_after.
  destruct h as [[c a0 co fs ms sb] cm md]. unfold host_after.
  cbn [world can_mkdir made_dirs slurm_config argv0 can_open files modes
       sbatch fst snd app].
  match goal with
  | |- context [submit_job_array ?a ?b ?d ?s ?w] =>
      destruct (submit_job_array a b d s w) as [[returns|e] w']
  end; reflexivity.
Qed.

Lemma launch_job_array_composes_witness :
  let job_names := map (task_job_name demo_env) overrides3 in
  let output_dirs := map (task_output_dir demo_env "multirun") overrides3 in
  let run := submit_job_array overrides3 job_names output_dirs "multirun" in
  let h := demo_host (demo_world array_conf (Exited 0 "Submitted batch job 555")) in
  List.length job_names = 3
  /\ List.length output_dirs = 3
  /\ _launch_job_array demo_env overrides3 0 "multirun" h
     = (result_of run (world h),
        {| world := world_after run (world h);
           can_mkdir := can_mkdir h;
           made_dirs := (rev output_dirs ++ made_dirs h)%list |}).
Proof.
  apply (launch_job_array_composes
           demo_env
           (demo_host (demo_world array_conf
                         (Exited 0 "Submitted batch job 555")))
           overrides3 0 "multirun").
  intros overrides _. reflexivity.
Defined.

(** When the directory of one task cannot be made, [_launch_job_array]
    raises there: the directories of the tasks before it exist, and the
    world of [_core] is untouched, so neither the task store nor the script
    is written and nothing is submitted. *)
Theorem launch_job_array_mkdir_fails
        (self : HydraEnv) (h : Host)
        (before after : list (list string)) (blocked : list string)
        (initial_job_idx : Z) (sweep_dir : string) :
  (forall overrides,
      In overrides before ->
      can_mkdir h (task_output_dir self sweep_dir overrides) = true) ->
  can_mkdir h (task_output_dir self sweep_dir blocked) = false ->
  _launch_job_array self (before ++ blocked :: after) initial_job_idx
                    sweep_dir h
  = (Raised (PermissionError (task_output_dir self sweep_dir blocked)),
     host_after h [] (rev (map (task_output_dir self sweep_dir) before))).
Proof.
  intros Hmk Hblocked. unfold _launch_job_array, hbind at 1.
  rewrite collect_array_jobs_prefix by assumption.
  cbn [collect_array_jobs]. unfold hbind at 1, Path_mkdir at 1.
  destruct h as [[c a0 co fs ms sb] cm md]. unfold host_after.
  cbn [world can_mkdir made_dirs slurm_config argv0 can_open files modes
       sbatch app] in *.
  now rewrite Hblocked.
Qed.

Lemma launch_job_array_mkdir_fails_witness :
  _launch_job_array demo_env ([["a=1"]] ++ ["a=2"] :: [["a=3"]]) 0
                    "multirun" blocked_host
  = (Raised (PermissionError (task_output_dir demo_env "multirun" ["a=2"])),
     host_after blocked_host []
       (rev (map (task_output_dir demo_env "multirun") [["a=1"]]))).
Proof.
  apply (launch_job_array_mkdir_fails
           demo_env blocked_host [["a=1"]] [["a=3"]] ["a=2"] 0 "multirun").
  - intros overrides [<-|[]]. reflexivity.
  - reflexivity.
Defined.

(** ** [additional] has the last word *)

Lemma dict_get_update_last {V} (d items : PyDict.dict V) (k : string) (v : V) :
  NoDup (map fst items) -> In (k, v) items ->
  PyDict.get k (PyDict.update d items) = Some v.
Proof.
  unfold PyDict.update. revert d.
  induction items as [|[k' v'] items IH]; intros d Hnd Hin; [destruct Hin|].
  cbn [fold_left fst snd]. inversion Hnd as [|? ? Hnot Hrest]; subst.
  destruct Hin as [[= -> ->]|Hin].
  - fold (PyDict.update (PyDict.set k v d) items).
    rewrite dict_get_update_other; [apply dict_get_set_same|].
    now apply dict_mem_false_keys.
  - now apply IH.
Qed.

(** An entry of [additional] wins over everything computed before it: in
    both scripts [params] holds its value under its key, also when the key
    names an attribute, the array range or a redirection. In the single-job
    script it is then rendered; in the array script it is rendered unless
    the key is [output] or [error]. *)
Theorem additional_takes_precedence
        (c : config.SlurmQueueConf) (array_name : pyval) (array_size : Z)
        (output_dir command k : string) (v : pyval) :
  NoDup (map fst (config.additional c)) ->
  In (k, v) (config.additional c) ->
  PyDict.get k (array_params c array_size) = Some v
  /\ PyDict.get k (slurm_params c output_dir) = Some v
  /\ In (as_sbatch_flag k v) (slurm_script_lines c output_dir command)
  /\ (in_list k ["output"; "error"] = false ->
      In (as_sbatch_flag k v)
         (array_directive_lines c array_name array_size)).
Proof.
  intros Hnd Hin.
  assert (Ha : PyDict.get k (array_params c array_size) = Some v).
  { unfold array_params, update_additional.
    destruct (config.additional c) as [|kv extra] eqn:E; [destruct Hin|].
    now apply dict_get_update_last. }
  assert (Hs : PyDict.get k (slurm_params c output_dir) = Some v).
  { unfold slurm_params, update_additional.
    destruct (config.additional c) as [|kv extra] eqn:E; [destruct Hin|].
    now apply dict_get_update_last. }
  repeat split; try assumption.
  - now apply slurm_directive_of_entry.
  - intros Hk. now apply array_directive_of_entry.
Qed.

Lemma additional_takes_precedence_witness :
  let c := conf_with (PStr "sweep") PNone PNone
                     [("partition", PStr "debug"); ("array", PStr "0-9%4")] in
  PyDict.get "partition" (array_params c 3) = Some (PStr "debug")
  /\ PyDict.get "partition" (slurm_params c "multirun/0") = Some (PStr "debug")
  /\ In "#SBATCH --partition=debug"
        (slurm_script_lines c "multirun/0" "python train.py")
  /\ (in_list "partition" ["output"; "error"] = false ->
      In "#SBATCH --partition=debug"
         (array_directive_lines c (PStr "sweep") 3)).
Proof.
  apply (additional_takes_precedence
           (conf_with (PStr "sweep") PNone PNone
                      [("partition", PStr "debug"); ("array", PStr "0-9%4")])
           (PStr "sweep") 3 "multirun/0" "python train.py"
           "partition" (PStr "debug")).
  - repeat constructor; simpl; intuition discriminate.
  - left. reflexivity.
Defined.

(** ** The empty batch *)


